(** * pymcmc._gpy_model: the GPy model wrapper and its cached state

  A shallow embedding of [src/pymcmc/_gpy_model.py].  The class [GPyModel]
  wraps a GPy model object and caches, in the dictionary [self._state], the
  log likelihood, the log prior, their gradients and a copy of the
  parameter array every time the parameters are written.

  The wrapped model is a black box: its methods are given by an arbitrary
  [behaviour], a function from the method called, the model's internal
  state and the store of numpy arrays to an answer (a value or a raised
  exception), a new internal state and a new store.  Every invocation of a
  method of the model is recorded in the machine's [trace].

  numpy arrays are objects with identity: they live in a store indexed by
  locations, so that two names for one array see each other's writes and
  [ndarray.copy()] yields an array that does not. *)

From Stdlib Require Import PrimFloat.
From stdpp Require Import gmap strings list fin_maps.

Definition loc := positive.

Section Machine.

(** [scalar] is the type of Python floats, [E] the exceptions a model may
    raise and [M] the internal states of the wrapped model.  The wrapper
    does no arithmetic on floats and inspects neither exceptions nor the
    model's state. *)
Context {scalar E M : Type}.

(** ** Python values *)

(** What the wrapper stores in [self._state]: a float or (a reference to)
    a numpy array. *)
Inductive value :=
| VFloat (x : scalar)
| VArr (l : loc).

(** Exceptions that reach the caller: the [KeyError] of a failed dictionary
    lookup and whatever the wrapped model raised. *)
Inductive exn :=
| KeyError (key : string)
| ModelError (e : E).

(** ** The interface of the wrapped model

    One constructor per attribute of [self.model] the wrapper touches, and
    one for the routine [assign_priors_to_gpy_model], indexed by the type
    of the answer: the log likelihood and the log prior are floats, the
    gradients and the optimizer array are numpy arrays, the gradient of the
    log prior is an array or, for a flat prior, a float, and the number of
    transformed parameters is a count.
    - [LogLikelihood]            is [model.log_likelihood()]
    - [LogPrior]                 is [model.log_prior()]
    - [LogLikelihoodGradients]   is [model._log_likelihood_gradients()]
    - [LogPriorGradients]        is [model._log_prior_gradients()], a
                                 float or an array
    - [TransformGradients g]     is [model._transform_gradients(g)]
    - [GetOptimizerArray]        reads [model.optimizer_array]
    - [SetOptimizerArray v]      is [model.optimizer_array = v]
    - [NumParamsTransformed]     is [model.num_params_transformed()]
    - [GetParamNames]            is [model._get_param_names()]
    - [AssignPriors]             is [assign_priors_to_gpy_model(model)] *)
Inductive method : Type → Type :=
| LogLikelihood : method scalar
| LogPrior : method scalar
| LogLikelihoodGradients : method loc
| LogPriorGradients : method value
| TransformGradients (g : loc) : method loc
| GetOptimizerArray : method loc
| SetOptimizerArray (v : loc) : method unit
| NumParamsTransformed : method nat
| GetParamNames : method (list string)
| AssignPriors : method unit.

(** A model: how each method answers and what it does to the model's state
    and to the arrays. *)
Definition behaviour : Type :=
  ∀ X, method X → M → gmap loc (list scalar) → (E + X) * M * gmap loc (list scalar).

(** One entry of the trace: the method, the contents its array argument
    had when it was called, and the answer. *)
Inductive event :=
| EvLogLikelihood (r : E + scalar)
| EvLogPrior (r : E + scalar)
| EvLogLikelihoodGradients (r : E + loc)
| EvLogPriorGradients (r : E + value)
| EvTransformGradients (g : loc) (content : option (list scalar)) (r : E + loc)
| EvGetOptimizerArray (r : E + loc)
| EvSetOptimizerArray (v : loc) (content : option (list scalar)) (r : E + unit)
| EvNumParamsTransformed (r : E + nat)
| EvGetParamNames (r : E + list string)
| EvAssignPriors (r : E + unit).

Definition record {X} (c : method X) (h : gmap loc (list scalar)) : E + X → event :=
  match c in method X return E + X → event with
  | LogLikelihood => EvLogLikelihood
  | LogPrior => EvLogPrior
  | LogLikelihoodGradients => EvLogLikelihoodGradients
  | LogPriorGradients => EvLogPriorGradients
  | TransformGradients g => EvTransformGradients g (h !! g)
  | GetOptimizerArray => EvGetOptimizerArray
  | SetOptimizerArray v => EvSetOptimizerArray v (h !! v)
  | NumParamsTransformed => EvNumParamsTransformed
  | GetParamNames => EvGetParamNames
  | AssignPriors => EvAssignPriors
  end.

(** ** Machine state *)

(** Everything outside the wrapper object: the numpy arrays, the wrapped
    model and the calls made to it so far. *)
Record machine := Machine {
  heap : gmap loc (list scalar);
  model : M;
  trace : list event;
}.

(** The attributes of a [GPyModel] instance.  [self.model] is the model of
    the machine. *)
Record GPyModel := Wrapper {
  name : string;
  _compute_grad : bool;
  _state : gmap string value;
}.

(** ** The monad of method bodies

    A method body runs on [self] and the machine and either returns or
    raises; in both cases the attributes assigned and the effects made so
    far stay. *)
Inductive outcome (A : Type) :=
| Ok (a : A) (self : GPyModel) (σ : machine)
| Raise (e : exn) (self : GPyModel) (σ : machine).
Global Arguments Ok {A} a self σ.
Global Arguments Raise {A} e self σ.

Definition Py (A : Type) : Type := GPyModel → machine → outcome A.

Definition ret {A} (a : A) : Py A := λ self σ, Ok a self σ.

Definition bind {A B} (m : Py A) (k : A → Py B) : Py B := λ self σ,
  match m self σ with
  | Ok a self' σ' => k a self' σ'
  | Raise e self' σ' => Raise e self' σ'
  end.

End Machine.

Global Arguments value : clear implicits.
Global Arguments exn : clear implicits.
Global Arguments method : clear implicits.
Global Arguments event : clear implicits.
Global Arguments behaviour : clear implicits.
Global Arguments machine : clear implicits.
Global Arguments GPyModel : clear implicits.
Global Arguments outcome : clear implicits.
Global Arguments Py : clear implicits.

Declare Scope py_scope.
Delimit Scope py_scope with py.
Notation "x ←ₚ m ; k" := (bind m (λ x, k))
(at level 20, m at level 100, k at level 200, right associativity,
 format "'[' x  ←ₚ  m ; '/' k ']'") : py_scope.
Notation "m ;;ₚ k" := (bind m (λ _, k))
(at level 100, k at level 200, right associativity,
 format "'[' m ;;ₚ '/' k ']'") : py_scope.

Local Open Scope py_scope.

(** ** The class [GPyModel] *)

Section Code.

Context {scalar E M : Type}.

(** The wrapped model. *)
Variable β : behaviour scalar E M.

#[local] Abbreviation Py := (Py scalar E M).

(** *** Primitive steps *)

(** A call of a method of the wrapped model: the model answers, changes
    its state and the arrays as it likes, and the call is recorded.  An
    exception raised by the model is raised by the call. *)
Definition call {X} (c : method scalar X) : Py X := λ self σ,
  let '(r, m', h') := β X c (model σ) (heap σ) in
  let σ' := {| heap := h'; model := m';
               trace := trace σ ++ [record c (heap σ) r] |} in
  match r with
  | inl e => Raise (ModelError e) self σ'
  | inr x => Ok x self σ'
  end.

(** [np.array(xs)]: a new array, at a location not in use. *)
Definition np_array (xs : list scalar) : Py loc := λ self σ,
  let l := fresh (dom (heap σ)) in
  Ok l self {| heap := <[l := xs]> (heap σ); model := model σ; trace := trace σ |}.

(** [a.copy()]: a new array with the contents of [a].  (A location that
    holds no array reads as the empty array; a model never hands one
    out.) *)
Definition np_copy (a : loc) : Py loc := λ self σ,
  np_array (default [] (heap σ !! a)) self σ.

(** [self._state = d] *)
Definition set__state (d : gmap string (value scalar)) : Py unit := λ self σ,
  Ok tt {| name := name self; _compute_grad := _compute_grad self; _state := d |} σ.

(** [self._state[key] = v] *)
Definition state_setitem (key : string) (v : value scalar) : Py unit := λ self σ,
  Ok tt {| name := name self; _compute_grad := _compute_grad self;
           _state := <[key := v]> (_state self) |} σ.

(** [self._state[key]], a [KeyError] when the key is absent. *)
Definition state_getitem (key : string) : Py (value scalar) := λ self σ,
  match _state self !! key with
  | Some v => Ok v self σ
  | None => Raise (KeyError key) self σ
  end.

(** [self._compute_grad] *)
Definition get__compute_grad : Py bool := λ self σ, Ok (_compute_grad self) self σ.

(** [self._compute_grad = b] *)
Definition set__compute_grad (b : bool) : Py unit := λ self σ,
  Ok tt {| name := name self; _compute_grad := b; _state := _state self |} σ.

(** *** Properties that ask the model *)

Definition num_params : Py nat := call NumParamsTransformed.

Definition param_names : Py (list string) := call GetParamNames.

(** *** [_eval_state] *)

Definition _eval_state : Py unit :=
  set__state ∅;;ₚ
  x ←ₚ call LogLikelihood;
  state_setitem "log_likelihood" (VFloat x);;ₚ
  x ←ₚ call LogPrior;
  state_setitem "log_prior" (VFloat x);;ₚ
  cg ←ₚ get__compute_grad;
  (if cg : bool then
     g ←ₚ call LogLikelihoodGradients;
     r ←ₚ call (TransformGradients g);
     state_setitem "grad_log_likelihood" (VArr r);;ₚ
     g ←ₚ call LogPriorGradients;
     g ←ₚ match g with
          | VFloat x => n ←ₚ num_params; np_array (replicate n x)
          | VArr a => ret a
          end;
     r ←ₚ call (TransformGradients g);
     state_setitem "grad_log_prior" (VArr r)
   else ret tt);;ₚ
  a ←ₚ call GetOptimizerArray;
  c ←ₚ np_copy a;
  state_setitem "params" (VArr c).

(** *** [__getstate__] and [__setstate__] *)

Definition __getstate__ : Py (gmap string (value scalar)) := λ self σ,
  Ok (_state self) self σ.

Definition __setstate__ (state : gmap string (value scalar)) : Py unit :=
  set__state state.

(** *** Properties backed by the cache *)

Definition log_likelihood : Py (value scalar) := state_getitem "log_likelihood".

Definition log_prior : Py (value scalar) := state_getitem "log_prior".

Definition params : Py (value scalar) := state_getitem "params".

Definition params_setter (v : loc) : Py unit :=
  call (SetOptimizerArray v);;ₚ
  _eval_state.

Definition grad_log_likelihood : Py (value scalar) := state_getitem "grad_log_likelihood".

Definition grad_log_prior : Py (value scalar) := state_getitem "grad_log_prior".

(** *** Construction *)

(** Modelled from the spec: the initialiser of the base class [Model],
    which is imported from the package and is not under src/.  The spec
    lists the base class as an external collaborator of this file and
    gives it no part in the cache or in the wrapped model; it is taken to
    record the name. *)
Definition Model__init__ (nm : string) : Py unit := λ self σ,
  Ok tt {| name := nm; _compute_grad := _compute_grad self; _state := _state self |} σ.

(** [self.model = model] has no counterpart here: the model of the machine
    is the wrapped model. *)
Definition __init__ (nm : string) (compute_grad assign_priors : bool) : Py unit :=
  (if assign_priors then call AssignPriors else ret tt);;ₚ
  Model__init__ nm;;ₚ
  set__compute_grad compute_grad;;ₚ
  _eval_state.

(** An instance before [__init__] has run.  Its attributes are not set
    yet; [__init__] assigns every one of them before it reads any. *)
Definition blank : GPyModel scalar :=
  {| name := ""; _compute_grad := false; _state := ∅ |}.

(** [GPyModel(model, name, compute_grad, assign_priors)] *)
Definition new (nm : string) (compute_grad assign_priors : bool)
    (σ : machine scalar E M) : outcome scalar E M unit :=
  __init__ nm compute_grad assign_priors blank σ.

End Code.

(** ** What a caller observes *)

Section Observations.

Context {scalar E M : Type}.

(** The answer of a call, without the state it left. *)
Definition result {A} (o : outcome scalar E M A) : exn E + A :=
  match o with
  | Ok a _ _ => inr a
  | Raise e _ _ => inl e
  end.

Definition self_after {A} (o : outcome scalar E M A) : GPyModel scalar :=
  match o with
  | Ok _ self _ => self
  | Raise _ self _ => self
  end.

Definition machine_after {A} (o : outcome scalar E M A) : machine scalar E M :=
  match o with
  | Ok _ _ σ => σ
  | Raise _ _ σ => σ
  end.

(** A value as its reader sees it: a float, or the contents of the array
    (none when there is no such array). *)
Inductive contents :=
| CFloat (x : scalar)
| CArr (xs : option (list scalar)).

Definition deref (h : gmap loc (list scalar)) (v : value scalar) : contents :=
  match v with
  | VFloat x => CFloat x
  | VArr l => CArr (h !! l)
  end.

(** The cached snapshot as its reader sees it. *)
Definition snapshot (self : GPyModel scalar) (σ : machine scalar E M)
    : gmap string contents :=
  deref (heap σ) <$> _state self.

(** An assignment into an existing array from outside the wrapper,
    [a[:] = ys]. *)
Definition poke (a : loc) (ys : list scalar) (σ : machine scalar E M)
    : machine scalar E M :=
  match heap σ !! a with
  | Some _ => {| heap := <[a := ys]> (heap σ); model := model σ; trace := trace σ |}
  | None => σ
  end.

End Observations.

Global Arguments contents : clear implicits.

(** ** Histories of a wrapper *)

Section Histories.

Context {scalar E M : Type}.
Variable β : behaviour scalar E M.

(** What a call of a method of the model answers to the wrapper. *)
Definition answer {X} (r : E + X) : exn E + X :=
  match r with
  | inl e => inl (ModelError e)
  | inr x => inr x
  end.

(** The entry points that evaluate the state: construction, a write of
    [params], and [_eval_state] itself. *)
Inductive evaluation : Py scalar E M unit → Prop :=
| evaluation_init nm compute_grad assign_priors :
    evaluation (__init__ β nm compute_grad assign_priors)
| evaluation_write v :
    evaluation (params_setter β v)
| evaluation_direct :
    evaluation (_eval_state β).

(** Whether a write of [params] reaches the evaluation: it does when the
    model answers the assignment of [optimizer_array]. *)
Definition reaches_evaluation (v : loc) (σ : machine scalar E M) : bool :=
  match (β unit (SetOptimizerArray v) (model σ) (heap σ)).1.1 with
  | inr _ => true
  | inl _ => false
  end.

(** [constructed_with cg restored self σ]: the wrapper [self] was
    constructed with [compute_grad = cg] and has since been used, up to the
    machine state [σ]: its parameters were written (the write returned or
    raised), any state at all was given to [__setstate__], and the machine
    (the model, the arrays) changed in any way behind its back.  [restored]
    tells where the cache comes from: it is set when [__setstate__] put the
    cache there and no evaluation has run since, and unset when the last
    evaluation left it. *)
Inductive constructed_with (cg : bool)
  : bool → GPyModel scalar → machine scalar E M → Prop :=
| cw_new nm assign_priors σ self' σ' :
    new β nm cg assign_priors σ = Ok tt self' σ' →
    constructed_with cg false self' σ'
| cw_write restored v self σ :
    constructed_with cg restored self σ →
    constructed_with cg (restored && negb (reaches_evaluation v σ))
                        (self_after (params_setter β v self σ))
                        (machine_after (params_setter β v self σ))
| cw_restore restored s self σ :
    constructed_with cg restored self σ →
    constructed_with cg true (self_after (__setstate__ s self σ)) σ
| cw_outside restored self σ σ' :
    constructed_with cg restored self σ →
    constructed_with cg restored self σ'.

(** What a failed evaluation leaves.  [failed_evaluation cg e t d]: an
    evaluation with [_compute_grad = cg] that made the calls [t], the last
    of which raised [e], leaves the cache [d].  One case per call that can
    raise. *)
Inductive failed_evaluation
  : bool → E → list (event scalar E) → gmap string (value scalar) → Prop :=
| failed_log_likelihood cg e :
    failed_evaluation cg e
      [EvLogLikelihood (inl e)]
      ∅
| failed_log_prior cg e x :
    failed_evaluation cg e
      [EvLogLikelihood (inr x); EvLogPrior (inl e)]
      (<["log_likelihood" := VFloat x]> ∅)
| failed_optimizer_array_without_gradients e x y :
    failed_evaluation false e
      [EvLogLikelihood (inr x); EvLogPrior (inr y);
       EvGetOptimizerArray (inl e)]
      (<["log_prior" := VFloat y]> (<["log_likelihood" := VFloat x]> ∅))
| failed_log_likelihood_gradients e x y :
    failed_evaluation true e
      [EvLogLikelihood (inr x); EvLogPrior (inr y);
       EvLogLikelihoodGradients (inl e)]
      (<["log_prior" := VFloat y]> (<["log_likelihood" := VFloat x]> ∅))
| failed_first_transform e x y g c :
    failed_evaluation true e
      [EvLogLikelihood (inr x); EvLogPrior (inr y);
       EvLogLikelihoodGradients (inr g);
       EvTransformGradients g c (inl e)]
      (<["log_prior" := VFloat y]> (<["log_likelihood" := VFloat x]> ∅))
| failed_log_prior_gradients e x y g c r :
    failed_evaluation true e
      [EvLogLikelihood (inr x); EvLogPrior (inr y);
       EvLogLikelihoodGradients (inr g);
       EvTransformGradients g c (inr r);
       EvLogPriorGradients (inl e)]
      (<["grad_log_likelihood" := VArr r]>
         (<["log_prior" := VFloat y]> (<["log_likelihood" := VFloat x]> ∅)))
| failed_num_params e x y g c r z :
    failed_evaluation true e
      [EvLogLikelihood (inr x); EvLogPrior (inr y);
       EvLogLikelihoodGradients (inr g);
       EvTransformGradients g c (inr r);
       EvLogPriorGradients (inr (VFloat z));
       EvNumParamsTransformed (inl e)]
      (<["grad_log_likelihood" := VArr r]>
         (<["log_prior" := VFloat y]> (<["log_likelihood" := VFloat x]> ∅)))
| failed_transform_of_broadcast e x y g c r z n g' :
    failed_evaluation true e
      [EvLogLikelihood (inr x); EvLogPrior (inr y);
       EvLogLikelihoodGradients (inr g);
       EvTransformGradients g c (inr r);
       EvLogPriorGradients (inr (VFloat z));
       EvNumParamsTransformed (inr n);
       EvTransformGradients g' (Some (replicate n z)) (inl e)]
      (<["grad_log_likelihood" := VArr r]>
         (<["log_prior" := VFloat y]> (<["log_likelihood" := VFloat x]> ∅)))
| failed_transform_of_array e x y g c r l c' :
    failed_evaluation true e
      [EvLogLikelihood (inr x); EvLogPrior (inr y);
       EvLogLikelihoodGradients (inr g);
       EvTransformGradients g c (inr r);
       EvLogPriorGradients (inr (VArr l));
       EvTransformGradients l c' (inl e)]
      (<["grad_log_likelihood" := VArr r]>
         (<["log_prior" := VFloat y]> (<["log_likelihood" := VFloat x]> ∅)))
| failed_optimizer_array_after_broadcast e x y g c r z n g' r' :
    failed_evaluation true e
      [EvLogLikelihood (inr x); EvLogPrior (inr y);
       EvLogLikelihoodGradients (inr g);
       EvTransformGradients g c (inr r);
       EvLogPriorGradients (inr (VFloat z));
       EvNumParamsTransformed (inr n);
       EvTransformGradients g' (Some (replicate n z)) (inr r');
       EvGetOptimizerArray (inl e)]
      (<["grad_log_prior" := VArr r']>
         (<["grad_log_likelihood" := VArr r]>
            (<["log_prior" := VFloat y]> (<["log_likelihood" := VFloat x]> ∅))))
| failed_optimizer_array_after_array e x y g c r l c' r' :
    failed_evaluation true e
      [EvLogLikelihood (inr x); EvLogPrior (inr y);
       EvLogLikelihoodGradients (inr g);
       EvTransformGradients g c (inr r);
       EvLogPriorGradients (inr (VArr l));
       EvTransformGradients l c' (inr r');
       EvGetOptimizerArray (inl e)]
      (<["grad_log_prior" := VArr r']>
         (<["grad_log_likelihood" := VArr r]>
            (<["log_prior" := VFloat y]> (<["log_likelihood" := VFloat x]> ∅)))).

(** The calls that ask the model something; the others are the write of
    [optimizer_array] and the assignment of priors. *)
Definition is_query {X} (c : method scalar X) : bool :=
  match c with
  | SetOptimizerArray _ | AssignPriors => false
  | _ => true
  end.

(** *** Models whose answers are functions of their parameter state *)

(** What a query asks, the array it is given taken by its contents. *)
Inductive question :=
| QLogLikelihood
| QLogPrior
| QLogLikelihoodGradients
| QLogPriorGradients
| QTransformGradients (g : option (list scalar))
| QGetOptimizerArray
| QNumParamsTransformed
| QGetParamNames.

Definition asks {X} (c : method scalar X) (h : gmap loc (list scalar))
    : option question :=
  match c with
  | LogLikelihood => Some QLogLikelihood
  | LogPrior => Some QLogPrior
  | LogLikelihoodGradients => Some QLogLikelihoodGradients
  | LogPriorGradients => Some QLogPriorGradients
  | TransformGradients g => Some (QTransformGradients (h !! g))
  | GetOptimizerArray => Some QGetOptimizerArray
  | NumParamsTransformed => Some QNumParamsTransformed
  | GetParamNames => Some QGetParamNames
  | SetOptimizerArray _ | AssignPriors => None
  end.

(** What an answer is to the one who reads it, an array taken by its
    contents: nothing for an array that does not exist. *)
Inductive seen :=
| SFloat (x : scalar)
| SArr (xs : list scalar)
| SNat (n : nat)
| SNames (ns : list string)
| SNone.

Definition see {X} (c : method scalar X) (h : gmap loc (list scalar))
    : X → option seen :=
  match c in method _ X return X → option seen with
  | LogLikelihood | LogPrior => λ x, Some (SFloat x)
  | LogLikelihoodGradients | TransformGradients _ | GetOptimizerArray =>
      λ a, SArr <$> h !! a
  | LogPriorGradients => λ v,
      match v with
      | VFloat x => Some (SFloat x)
      | VArr a => SArr <$> h !! a
      end
  | NumParamsTransformed => λ n, Some (SNat n)
  | GetParamNames => λ ns, Some (SNames ns)
  | SetOptimizerArray _ | AssignPriors => λ _, Some SNone
  end.

(** The answer [r] to [c], read in the store [h] it was given in, is
    [expected]. *)
Definition answers_as {X} (c : method scalar X) (h : gmap loc (list scalar))
    (r : E + X) (expected : E + seen) : Prop :=
  match r, expected with
  | inl e, inl e' => e = e'
  | inr x, inr s => see c h x = Some s
  | _, _ => False
  end.

(** The snapshot of a model whose queries answer by [law] and whose
    optimizer array holds [current], in parameter state [p]; none when a
    query raises or answers something of another kind. *)
Definition expected_snapshot {P : Type} (law : P → question → E + seen)
    (current : P → list scalar) (cg : bool) (p : P)
    : option (gmap string (contents scalar)) :=
  match law p QLogLikelihood, law p QLogPrior with
  | inr (SFloat x), inr (SFloat y) =>
      let base : gmap string (contents scalar) :=
        <["log_prior" := CFloat y]> (<["log_likelihood" := CFloat x]> ∅) in
      grads ←
        (if cg then
           match law p QLogLikelihoodGradients with
           | inr (SArr g1) =>
               match law p (QTransformGradients (Some g1)) with
               | inr (SArr t1) =>
                   g2 ← match law p QLogPriorGradients with
                        | inr (SFloat x) =>
                            match law p QNumParamsTransformed with
                            | inr (SNat n) => Some (replicate n x)
                            | _ => None
                            end
                        | inr (SArr a) => Some a
                        | _ => None
                        end;
                   match law p (QTransformGradients (Some g2)) with
                   | inr (SArr t2) =>
                       Some (<["grad_log_prior" := CArr (Some t2)]>
                               (<["grad_log_likelihood" := CArr (Some t1)]> base))
                   | _ => None
                   end
               | _ => None
               end
           | _ => None
           end
         else Some base);
      Some (<["params" := CArr (Some (current p))]> grads)
  | _, _ => None
  end.

(** The exception an event records, when the call raised. *)
Definition raised_by (ev : event scalar E) : option E :=
  match ev with
  | EvLogLikelihood (inl e) | EvLogPrior (inl e)
  | EvLogLikelihoodGradients (inl e) | EvLogPriorGradients (inl e)
  | EvTransformGradients _ _ (inl e) | EvGetOptimizerArray (inl e)
  | EvSetOptimizerArray _ _ (inl e) | EvNumParamsTransformed (inl e)
  | EvGetParamNames (inl e) | EvAssignPriors (inl e) => Some e
  | _ => None
  end.

(** The keys of the cache, in the order [_eval_state] stores them;
    ["params"] comes last. *)
Definition keys_before_params : list string :=
  ["log_likelihood"; "log_prior"; "grad_log_likelihood"; "grad_log_prior"].

(** A wrapper whose cache holds no gradient. *)
Definition no_gradients (self : GPyModel scalar) : Prop :=
  _state self !! "grad_log_likelihood" = None
  ∧ _state self !! "grad_log_prior" = None.

End Histories.

Global Arguments question : clear implicits.
Global Arguments seen : clear implicits.

(** ** The calls of a trace *)

Section Calls.

Context {scalar E : Type}.

(** Which method an event is a call of. *)
Inductive kind :=
| KLogLikelihood
| KLogPrior
| KLogLikelihoodGradients
| KLogPriorGradients
| KTransformGradients
| KGetOptimizerArray
| KSetOptimizerArray
| KNumParamsTransformed
| KGetParamNames
| KAssignPriors.

Definition kind_of (ev : event scalar E) : kind :=
  match ev with
  | EvLogLikelihood _ => KLogLikelihood
  | EvLogPrior _ => KLogPrior
  | EvLogLikelihoodGradients _ => KLogLikelihoodGradients
  | EvLogPriorGradients _ => KLogPriorGradients
  | EvTransformGradients _ _ _ => KTransformGradients
  | EvGetOptimizerArray _ => KGetOptimizerArray
  | EvSetOptimizerArray _ _ _ => KSetOptimizerArray
  | EvNumParamsTransformed _ => KNumParamsTransformed
  | EvGetParamNames _ => KGetParamNames
  | EvAssignPriors _ => KAssignPriors
  end.

(** The calls made only to compute gradients: the two gradient accessors,
    the gradient transform and the count used to broadcast a float. *)
Definition asks_gradient (ev : event scalar E) : bool :=
  match kind_of ev with
  | KLogLikelihoodGradients | KLogPriorGradients
  | KTransformGradients | KNumParamsTransformed => true
  | _ => false
  end.

(** The calls [_eval_state] can make: it asks and reads, and neither writes
    the optimizer array, nor asks the parameter names, nor assigns priors. *)
Definition evaluation_call (ev : event scalar E) : bool :=
  match kind_of ev with
  | KSetOptimizerArray | KGetParamNames | KAssignPriors => false
  | _ => true
  end.

Definition assigns_priors (ev : event scalar E) : bool :=
  match kind_of ev with
  | KAssignPriors => true
  | _ => false
  end.

#[global] Instance kind_eq_dec : EqDecision kind.
Proof. solve_decision. Defined.

(** How many calls of one method a trace holds. *)
Definition calls_of (k : kind) (t : list (event scalar E)) : nat :=
  length (filter (λ ev, kind_of ev = k) t).

(** The keys of a complete snapshot. *)
Definition cache_keys (cg : bool) : gset string :=
  {[ "log_likelihood"; "log_prior"; "params" ]}
  ∪ (if cg then {[ "grad_log_likelihood"; "grad_log_prior" ]} else ∅).

End Calls.

(** ** A small model to run the wrapper on

    Each transformed parameter has a standard normal likelihood.  Without
    priors the log prior is flat and its gradient is the float [0.0]; once
    priors are assigned each parameter has a standard normal prior on the
    non-negative reals, whose log density is undefined below zero.  The
    gradient transform is the identity.  The model keeps its parameters by
    value and hands out a new array at every read of [optimizer_array]. *)

Module Toy.

Record state := State {
  theta : list float;
  priors : bool;
}.

Definition half_square_sum (xs : list float) : float :=
  foldr (λ x acc, acc - 0.5 * x * x)%float 0%float xs.

Definition negated (xs : list float) : list float :=
  (λ x, - x)%float <$> xs.

Definition publish (xs : list float) (h : gmap loc (list float))
    : loc * gmap loc (list float) :=
  let l := fresh (dom h) in (l, <[l := xs]> h).

Definition names : list string :=
  ["rbf.variance"; "rbf.lengthscale"; "Gaussian_noise.variance"].

Definition gp : behaviour float string state := λ X c,
  match c in method _ X
        return state → gmap loc (list float) → (string + X) * state * gmap loc (list float)
  with
  | LogLikelihood => λ m h, (inr (half_square_sum (theta m)), m, h)
  | LogPrior => λ m h,
      if priors m then
        if forallb (λ x, 0 <=? x)%float (theta m)
        then (inr (half_square_sum (theta m)), m, h)
        else (inl "ValueError: parameter outside the support of its prior", m, h)
      else (inr 0%float, m, h)
  | LogLikelihoodGradients => λ m h,
      let '(l, h') := publish (negated (theta m)) h in (inr l, m, h')
  | LogPriorGradients => λ m h,
      if priors m then
        let '(l, h') := publish (negated (theta m)) h in (inr (VArr l), m, h')
      else (inr (VFloat 0%float), m, h)
  | TransformGradients g => λ m h,
      match h !! g with
      | Some xs => let '(l, h') := publish xs h in (inr l, m, h')
      | None => (inl "TypeError: not an array", m, h)
      end
  | GetOptimizerArray => λ m h,
      let '(l, h') := publish (theta m) h in (inr l, m, h')
  | SetOptimizerArray v => λ m h,
      match h !! v with
      | Some xs => (inr tt, {| theta := xs; priors := priors m |}, h)
      | None => (inl "TypeError: not an array", m, h)
      end
  | NumParamsTransformed => λ m h, (inr (length (theta m)), m, h)
  | GetParamNames => λ m h, (inr (take (length (theta m)) names), m, h)
  | AssignPriors => λ m h, (inr tt, {| theta := theta m; priors := true |}, h)
  end.

(** What each query answers, as a function of the state of the model. *)
Definition law (p : state) (q : question float) : string + seen float :=
  match q with
  | QLogLikelihood => inr (SFloat (half_square_sum (theta p)))
  | QLogPrior =>
      if priors p then
        if forallb (λ x, 0 <=? x)%float (theta p)
        then inr (SFloat (half_square_sum (theta p)))
        else inl "ValueError: parameter outside the support of its prior"
      else inr (SFloat 0%float)
  | QLogLikelihoodGradients => inr (SArr (negated (theta p)))
  | QLogPriorGradients =>
      if priors p then inr (SArr (negated (theta p))) else inr (SFloat 0%float)
  | QTransformGradients (Some xs) => inr (SArr xs)
  | QTransformGradients None => inl "TypeError: not an array"
  | QGetOptimizerArray => inr (SArr (theta p))
  | QNumParamsTransformed => inr (SNat (length (theta p)))
  | QGetParamNames => inr (SNames (take (length (theta p)) names))
  end.

(** The state of the model with its parameters replaced. *)
Definition assign (p : state) (xs : list float) : state :=
  {| theta := xs; priors := priors p |}.

(** A machine holding the model with the given parameters and one more
    array, at location 1, holding [spare]. *)
Definition machine_with (params spare : list float) (with_priors : bool)
    : machine float string state :=
  {| heap := {[ 1%positive := spare ]};
     model := {| theta := params; priors := with_priors |};
     trace := [] |}.

(** *** Runs of the wrapper on the model *)

(** Three parameters, no priors yet, and an array holding other values. *)
Definition start : machine float string state :=
  machine_with [1; 2; 3]%float [0.5; 1.5; 2.5]%float false.

(** [GPyModel(model, 'gp', compute_grad=True, assign_priors=False)] *)
Definition built := new gp "gp" true false start.

(** [GPyModel(model, 'gp', compute_grad=False, assign_priors=False)] *)
Definition built_plain := new gp "gp" false false start.

(** [GPyModel(model, 'gp', compute_grad=True, assign_priors=True)] *)
Definition built_with_priors := new gp "gp" true true start.

(** [w.params = a1], with [a1] the array at location 1. *)
Definition moved :=
  params_setter gp 1%positive (self_after built) (machine_after built).

(** [w.params = old], with [old] the [params] read before the first write. *)
Definition moved_back :=
  params_setter gp 7%positive (self_after moved) (machine_after moved).

(** A model with two parameters, given priors at construction
    ([compute_grad=False, assign_priors=True]), and an array holding a
    negative value. *)
Definition strict :=
  new gp "gp" false true (machine_with [1; 2]%float [-3; 2]%float false).

(** [model.optimizer_array = a1], the first step of a write of [params]. *)
Definition written :=
  call gp (SetOptimizerArray 1%positive) (self_after strict) (machine_after strict).

(** [_eval_state()], the second step. *)
Definition rejected :=
  _eval_state gp (self_after written) (machine_after written).

End Toy.

(** ** More runs of the wrapper on the small model *)

Module ToyRuns.


(** [w.params = a], with [a] no array: the model refuses the assignment. *)
Definition refused :=
  params_setter Toy.gp 99%positive (self_after Toy.built) (machine_after Toy.built).

(** [w.params = a1] on the wrapper constructed with [compute_grad=False]. *)
Definition moved_plain :=
  params_setter Toy.gp 1%positive (self_after Toy.built_plain)
                (machine_after Toy.built_plain).

(** Two wrappers of one model: [with_gradients] is constructed with
    [compute_grad=True], then [without_gradients] with
    [compute_grad=False]. *)
Definition with_gradients := new Toy.gp "with" true false Toy.start.

Definition without_gradients :=
  new Toy.gp "without" false false (machine_after with_gradients).

(** [without_gradients.__setstate__(with_gradients.__getstate__())] *)
Definition restored :=
  __setstate__ (_state (self_after with_gradients))
               (self_after without_gradients) (machine_after without_gradients).

End ToyRuns.

(** ** A model whose optimizer array is a transform of its parameter

    The model has one parameter, a variance [phi].  Its optimizer array
    holds the square root of [phi], and a write of [x] sets [phi] to the
    square of [x].  Every query answers by a function of [phi]. *)

Module Sq.

Definition gp : behaviour float string float := λ X c,
  match c in method _ X
        return float → gmap loc (list float) → (string + X) * float * gmap loc (list float)
  with
  | LogLikelihood => λ phi h, (inr (- phi)%float, phi, h)
  | LogPrior => λ phi h, (inr 0%float, phi, h)
  | LogLikelihoodGradients => λ phi h,
      let '(l, h') := Toy.publish [(-1)%float] h in (inr l, phi, h')
  | LogPriorGradients => λ phi h, (inr (VFloat 0%float), phi, h)
  | TransformGradients g => λ phi h,
      match h !! g with
      | Some xs => let '(l, h') := Toy.publish xs h in (inr l, phi, h')
      | None => (inl "TypeError: not an array", phi, h)
      end
  | GetOptimizerArray => λ phi h,
      let '(l, h') := Toy.publish [sqrt phi] h in (inr l, phi, h')
  | SetOptimizerArray v => λ phi h,
      match h !! v with
      | Some [x] => (inr tt, (x * x)%float, h)
      | _ => (inl "ValueError: one parameter expected", phi, h)
      end
  | NumParamsTransformed => λ phi h, (inr 1, phi, h)
  | GetParamNames => λ phi h, (inr ["variance"], phi, h)
  | AssignPriors => λ phi h, (inr tt, phi, h)
  end.

(** What each query answers, as a function of [phi]. *)
Definition law (phi : float) (q : question float) : string + seen float :=
  match q with
  | QLogLikelihood => inr (SFloat (- phi)%float)
  | QLogPrior => inr (SFloat 0%float)
  | QLogLikelihoodGradients => inr (SArr [(-1)%float])
  | QLogPriorGradients => inr (SFloat 0%float)
  | QTransformGradients (Some xs) => inr (SArr xs)
  | QTransformGradients None => inl "TypeError: not an array"
  | QGetOptimizerArray => inr (SArr [sqrt phi])
  | QNumParamsTransformed => inr (SNat 1)
  | QGetParamNames => inr (SNames ["variance"])
  end.

(** The variance is 2, and one more array, at location 1, holds 3. *)
Definition start : machine float string float :=
  {| heap := {[ 1%positive := [3%float] ]}; model := 2%float; trace := [] |}.

(** [w = GPyModel(model, 'gp', compute_grad=True, assign_priors=False)] *)
Definition built := new gp "gp" true false start.

(** [w.params = a1], with [a1] the array at location 1. *)
Definition moved :=
  params_setter gp 1%positive (self_after built) (machine_after built).

(** [w.params = old], with [old] the [params] read before the first write. *)
Definition moved_back :=
  params_setter gp 7%positive (self_after moved) (machine_after moved).

End Sq.

(** * Tactics *)

(** Running a method body: every call of the model either raises or
    answers, and the branches of the code are followed. *)
Ltac py_unfold :=
  unfold new, __init__, params_setter, _eval_state, num_params, param_names,
    log_likelihood, log_prior, params, grad_log_likelihood, grad_log_prior,
    __setstate__, __getstate__ in *;
  unfold np_copy, Model__init__ in *;
  unfold np_array, bind, ret, call, set__state, state_setitem, state_getitem,
    get__compute_grad, set__compute_grad in *.

Ltac py_simpl :=
  cbn [model heap trace _state _compute_grad name record blank
       result self_after machine_after answer fst snd] in *.

Ltac py_step β :=
  match goal with
  | |- context [if ?b then _ else _] =>
      destruct b eqn:?
  | |- context [match ?g with VFloat _ => _ | VArr _ => _ end] =>
      destruct g
  | |- context [β ?X ?c ?m ?h] =>
      destruct (β X c m h) as [[[?|?] ?] ?] eqn:?
  end; py_simpl.

Ltac py_run β := py_unfold; py_simpl; repeat py_step β.

(** Finding one event in a trace that is known event by event. *)
Ltac find_event H found :=
  lazymatch type of H with
  | [] = ?p ++ _ :: _ => destruct p; discriminate H
  | _ :: _ = ?p ++ _ :: _ =>
      destruct p as [|? p]; cbn [app] in H;
      [ try discriminate H; found H
      | let H' := fresh in
        injection H as _ H'; find_event H' found ]
  end.

(** The keys of a dictionary built by insertions are the first [k] of a
    list. *)
Ltac keys_are_first k :=
  exists k; cbn [take list_to_set]; apply set_eq; intros ?;
  rewrite ?elem_of_union, ?elem_of_singleton, ?elem_of_empty; tauto.

Ltac flatten_trace :=
  rewrite <- ?app_assoc; cbn [app].

(** * Properties *)

Section Properties.

Context {scalar E M : Type}.
Variable β : behaviour scalar E M.

Implicit Types (self : GPyModel scalar) (σ : machine scalar E M).
Implicit Types (s : gmap string (value scalar)).

(** ** [__setstate__] and [__getstate__] *)

(** C10.  [__setstate__] assigns [self._state] and does nothing else: it
    returns, the machine is the one it started from (the state of the
    wrapped model, every array, and the record of the calls made to the
    model: none was made), [_compute_grad] and the name keep their values,
    and the cache is the state given. *)
Theorem C10_setstate_touches_only_the_cache s self σ :
  let o := __setstate__ s self σ in
  result o = inr tt
  ∧ machine_after o = σ
  ∧ model (machine_after o) = model σ
  ∧ heap (machine_after o) = heap σ
  ∧ trace (machine_after o) = trace σ
  ∧ _compute_grad (self_after o) = _compute_grad self
  ∧ name (self_after o) = name self
  ∧ _state (self_after o) = s.
Proof. cbv zeta. py_unfold. py_simpl. repeat split. Qed.

(** C7.  [__getstate__] hands out [self._state] as it is, and a wrapper
    that is given it through [__setstate__] answers every property backed by
    the cache as the source wrapper does, a [KeyError] for an absent entry
    included; what was set is what is got. *)
Theorem C7_getstate_setstate_passthrough (a b : GPyModel scalar) σ s :
  __getstate__ a σ = Ok (_state a) a σ
  ∧ (let b' := self_after (__setstate__ (_state a) b σ) in
     result (log_likelihood b' σ) = result (log_likelihood a σ)
     ∧ result (log_prior b' σ) = result (log_prior a σ)
     ∧ result (params b' σ) = result (params a σ)
     ∧ result (grad_log_likelihood b' σ) = result (grad_log_likelihood a σ)
     ∧ result (grad_log_prior b' σ) = result (grad_log_prior a σ)
     ∧ snapshot b' σ = snapshot a σ)
  ∧ result ((__setstate__ s;;ₚ __getstate__) b σ) = inr s.
Proof.
  cbv zeta. py_unfold. py_simpl.
  repeat split; try reflexivity;
    match goal with |- context [_state a !! ?k] => destruct (_state a !! k) end;
    reflexivity.
Qed.

(** ** Properties that ask the model *)

(** C8.  A read of [num_params] or of [param_names] is one call of the
    model, made when the property is read: its result is what the model
    answers in its current state, the call is the one event added to the
    trace, and the cache plays no part, whatever [__setstate__] has put in
    it. *)
Theorem C8_num_params_and_param_names_are_live self σ s :
  (result (num_params β self σ)
     = answer (β nat NumParamsTransformed (model σ) (heap σ)).1.1
   ∧ trace (machine_after (num_params β self σ))
     = trace σ ++ [EvNumParamsTransformed (β nat NumParamsTransformed (model σ) (heap σ)).1.1]
   ∧ result ((__setstate__ s;;ₚ num_params β) self σ) = result (num_params β self σ))
  ∧ (result (param_names β self σ)
     = answer (β (list string) GetParamNames (model σ) (heap σ)).1.1
   ∧ trace (machine_after (param_names β self σ))
     = trace σ ++ [EvGetParamNames (β (list string) GetParamNames (model σ) (heap σ)).1.1]
   ∧ result ((__setstate__ s;;ₚ param_names β) self σ) = result (param_names β self σ)).
Proof.
  unfold num_params, param_names, __setstate__, set__state, bind, call.
  cbn [model heap trace].
  destruct (β nat NumParamsTransformed _ _) as [[[?|?] ?] ?];
    destruct (β (list string) GetParamNames _ _) as [[[?|?] ?] ?];
    repeat split; reflexivity.
Qed.

(** ** The state after an evaluation *)

Lemma eval_state_without_compute_grad self σ :
  _compute_grad self = false →
  _compute_grad (self_after (_eval_state β self σ)) = false
  ∧ no_gradients (self_after (_eval_state β self σ)).
Proof.
  intros Hcg. unfold no_gradients. py_run β; try congruence;
    repeat split; try assumption;
    rewrite ?lookup_insert_ne by done; apply lookup_empty.
Qed.

Lemma constructed_without_compute_grad restored self σ :
  constructed_with β false restored self σ →
  _compute_grad self = false ∧ (restored = false → no_gradients self).
Proof.
  induction 1 as [nm ap σ self' σ' Hnew|restored v self σ _ [Hcg Hno]
                 |restored s self σ _ [Hcg _]|restored self σ σ' _ IH].
  - unfold new, __init__ in Hnew.
    assert (∀ self0 σ0, _compute_grad self0 = false →
              _eval_state β self0 σ0 = Ok tt self' σ' →
              _compute_grad self' = false ∧ no_gradients self') as Hev.
    { intros self0 σ0 Hcg Hrun.
      pose proof (eval_state_without_compute_grad self0 σ0 Hcg) as Hinv.
      rewrite Hrun in Hinv. exact Hinv. }
    assert (_compute_grad self' = false ∧ no_gradients self') as [Hcg Hno].
    { destruct ap; unfold bind at 1 in Hnew.
      + unfold call in Hnew.
        destruct (β unit AssignPriors _ _) as [[[?|[]] ?] ?]; [discriminate|].
        eapply Hev; [|exact Hnew]. reflexivity.
      + eapply Hev; [|exact Hnew]. reflexivity. }
    split; [exact Hcg|]. intros _. exact Hno.
  - unfold reaches_evaluation, params_setter, bind, call.
    destruct (β unit (SetOptimizerArray v) _ _) as [[[?|?] ?] ?];
      cbn [fst snd self_after negb]; cbv beta iota.
    + rewrite andb_true_r. split; [exact Hcg|exact Hno].
    + destruct (eval_state_without_compute_grad self
                  {| heap := g; model := m;
                     trace := trace σ
                              ++ [record (SetOptimizerArray v) (heap σ) (inr u)] |}
                  Hcg) as [Hcg' Hno'].
      split; [exact Hcg'|]. intros _. exact Hno'.
  - split; [exact Hcg|]. discriminate.
  - exact IH.
Qed.

(** C9, as the code has it.  Take a wrapper constructed with
    [compute_grad=False] whose cache is the one an evaluation left, at
    construction or at a write of [params], whatever [__setstate__] was
    given before that evaluation.  Its cache has no gradient, and both
    gradient properties raise the [KeyError] of the missing key. *)
Theorem C9_no_gradients_without_compute_grad self σ :
  constructed_with β false false self σ →
  _state self !! "grad_log_likelihood" = None
  ∧ _state self !! "grad_log_prior" = None
  ∧ grad_log_likelihood self σ = Raise (KeyError "grad_log_likelihood") self σ
  ∧ grad_log_prior self σ = Raise (KeyError "grad_log_prior") self σ.
Proof.
  intros Hc.
  destruct (constructed_without_compute_grad _ _ _ Hc) as [_ Hno].
  destruct (Hno eq_refl) as [Hl Hp].
  unfold grad_log_likelihood, grad_log_prior, state_getitem.
  rewrite Hl, Hp. repeat split.
Qed.

(** C5.  When construction returns, the model was asked its log likelihood
    and then its log prior, in the state the optional assignment of priors
    left it in, and the two properties return what it answered. *)
Theorem C5_construction_caches_the_models_answers
    nm compute_grad assign_priors σ self' σ' :
  new β nm compute_grad assign_priors σ = Ok tt self' σ' →
  ∃ m1 h1 x m2 h2 y m3 h3 rest,
    (if assign_priors
     then β unit AssignPriors (model σ) (heap σ) = (inr tt, m1, h1)
     else (model σ, heap σ) = (m1, h1))
    ∧ β scalar LogLikelihood m1 h1 = (inr x, m2, h2)
    ∧ β scalar LogPrior m2 h2 = (inr y, m3, h3)
    ∧ log_likelihood self' σ' = Ok (VFloat x) self' σ'
    ∧ log_prior self' σ' = Ok (VFloat y) self' σ'
    ∧ trace σ' = trace σ
                 ++ (if assign_priors then [EvAssignPriors (inr tt)] else [])
                 ++ EvLogLikelihood (inr x) :: EvLogPrior (inr y) :: rest.
Proof.
  intros Hnew. revert Hnew. py_run β; try discriminate;
    intros [= <- <-]; py_simpl;
    repeat match goal with u : unit |- _ => destruct u end;
    do 8 eexists; eexists;
    (split; [first [eassumption | reflexivity]|]);
    (split; [eassumption|]); (split; [eassumption|]);
    (split; [by simplify_map_eq|]); (split; [by simplify_map_eq|]);
    rewrite <- ?app_assoc; cbn [app]; reflexivity.
Qed.

(** ** The scalar gradient of a flat prior *)

(** C2.  In every evaluation (on construction, on a write of [params]),
    when [_log_prior_gradients()] answers a float [x], the next call is
    [num_params_transformed()], and, when that answers [n], the call after
    it is [_transform_gradients] on an array that holds [n] copies of [x];
    what the transform answers is stored as ["grad_log_prior"]. *)
Theorem C2_scalar_prior_gradient_is_broadcast op self σ pre x post :
  evaluation β op →
  trace (machine_after (op self σ))
    = trace σ ++ pre ++ EvLogPriorGradients (inr (VFloat x)) :: post →
  (∃ e, post = [EvNumParamsTransformed (inl e)])
  ∨ (∃ n g r rest,
       post = EvNumParamsTransformed (inr n)
              :: EvTransformGradients g (Some (replicate n x)) r :: rest
       ∧ length (replicate n x) = n
       ∧ (∀ y, y ∈ replicate n x → y = x)
       ∧ (∀ r', r = inr r' →
            _state (self_after (op self σ)) !! "grad_log_prior" = Some (VArr r'))).
Proof.
  intros Hop. destruct Hop; py_run β; flatten_trace; rewrite ?app_nil_r;
    intros Htr;
    apply app_inv_head in Htr;
    find_event Htr ltac:(fun H => injection H as -> <-);
    rewrite ?lookup_insert_eq;
    first
      [ left; eexists; reflexivity
      | right; do 4 eexists; split; [reflexivity|];
        split; [apply length_replicate|];
        split; [intros y Hy; apply elem_of_replicate in Hy; tauto|];
        intros r' [= <-]; by simplify_map_eq
      | right; do 4 eexists; split; [reflexivity|];
        split; [apply length_replicate|];
        split; [intros y Hy; apply elem_of_replicate in Hy; tauto|];
        intros r' [=] ].
Qed.

(** ** A model that raises *)

(** C1, as the code has it.  When the model raises during [_eval_state],
    the caller gets the model's own exception, the one the last call
    recorded.  The evaluation starts from an empty dictionary whatever the
    cache held, so nothing of the previous snapshot is left: the cache then
    holds exactly the entries stored before the call that raised, each with
    the value the model answered ([failed_evaluation] has one case per call
    that can raise: empty when [log_likelihood()] raised, the log likelihood
    alone when [log_prior()] raised, and so on), in the order
    ["log_likelihood"], ["log_prior"], ["grad_log_likelihood"],
    ["grad_log_prior"], and no ["params"]. *)
Theorem C1_failed_evaluation_leaves_the_entries_stored_so_far
    self σ e self' σ' :
  _eval_state β self σ = Raise e self' σ' →
  (∃ e0 ev, e = ModelError e0
            ∧ last (trace σ') = Some ev ∧ raised_by ev = Some e0)
  ∧ (∀ s, _eval_state β {| name := name self;
                            _compute_grad := _compute_grad self;
                            _state := s |} σ
          = Raise e self' σ')
  ∧ (∃ k, dom (_state self') = list_to_set (take k keys_before_params))
  ∧ _state self' !! "params" = None
  ∧ (∃ e0 t, e = ModelError e0
             ∧ trace σ' = trace σ ++ t
             ∧ failed_evaluation (_compute_grad self) e0 t (_state self')).
Proof.
  py_run β; try discriminate; intros [= <- <- <-]; py_simpl;
    (split; [do 2 eexists; split; [reflexivity|];
             split; [apply last_snoc|reflexivity]|]);
    (split; [reflexivity|]);
    (split; [rewrite ?dom_insert_L, ?dom_empty_L; unfold keys_before_params;
             first [ keys_are_first 0 | keys_are_first 1 | keys_are_first 2
                   | keys_are_first 3 | keys_are_first 4 ]|]);
    (split; [by simplify_map_eq|]);
    do 2 eexists; (split; [reflexivity|]);
    (split; [flatten_trace; reflexivity|]);
    rewrite ?lookup_insert_eq;
    repeat match goal with
    | H : _compute_grad _ = _ |- _ => rewrite H
    end;
    constructor.
Qed.

(** ** The copy of the parameter array *)

Lemma evaluation_ends_with_eval_state op self σ self' σ' :
  evaluation β op →
  op self σ = Ok tt self' σ' →
  ∃ self1 σ1, _eval_state β self1 σ1 = Ok tt self' σ'.
Proof.
  intros Hop. destruct Hop as [nm cg ap|v|].
  - unfold __init__, bind, call, ret, Model__init__, set__compute_grad.
    destruct ap; [destruct (β unit AssignPriors _ _) as [[[?|?] ?] ?]|];
      try discriminate; eauto.
  - unfold params_setter, bind, call.
    destruct (β unit (SetOptimizerArray v) _ _) as [[[?|?] ?] ?];
      try discriminate; eauto.
  - eauto.
Qed.

Section DefensiveCopy.

(** What the model hands out as its [optimizer_array] is an array. *)
Hypothesis optimizer_array_is_an_array : ∀ m h a m' h',
  β loc GetOptimizerArray m h = (inr a, m', h') → is_Some (h' !! a).

Lemma eval_state_copies_the_array self σ self' σ' :
  _eval_state β self σ = Ok tt self' σ' →
  ∃ a p xs,
    last (trace σ') = Some (EvGetOptimizerArray (inr a))
    ∧ _state self' !! "params" = Some (VArr p)
    ∧ heap σ' !! a = Some xs
    ∧ heap σ' !! p = Some xs
    ∧ p ≠ a.
Proof.
  py_run β; try discriminate; intros [= <- <-]; py_simpl;
    match goal with
    | H : β loc GetOptimizerArray _ ?h0 = (inr ?a, _, ?h) |- _ =>
        destruct (optimizer_array_is_an_array _ _ _ _ _ H) as [xs Hxs];
        assert (fresh (dom h) ≠ a) as Hne
          by (intros <-; apply (is_fresh (dom h)), elem_of_dom; eauto);
        exists a, (fresh (dom h)), xs
    end;
    rewrite last_snoc, !lookup_insert_eq, lookup_insert_ne, Hxs by done;
    repeat split; done.
Qed.

(** C6.  The ["params"] entry an evaluation stores is an array of its own:
    it holds what the model's [optimizer_array] held, it is not that array,
    and an assignment into the model's array from outside changes neither
    what the [params] property returns nor what that array holds. *)
Theorem C6_params_is_a_copy op self σ self' σ' :
  evaluation β op →
  op self σ = Ok tt self' σ' →
  ∃ a p xs,
    last (trace σ') = Some (EvGetOptimizerArray (inr a))
    ∧ heap σ' !! a = Some xs
    ∧ params self' σ' = Ok (VArr p) self' σ'
    ∧ snapshot self' σ' !! "params" = Some (CArr (Some xs))
    ∧ p ≠ a
    ∧ ∀ ys,
        heap (poke a ys σ') !! a = Some ys
        ∧ params self' (poke a ys σ') = Ok (VArr p) self' (poke a ys σ')
        ∧ snapshot self' (poke a ys σ') !! "params" = Some (CArr (Some xs)).
Proof.
  intros Hop Hrun.
  destruct (evaluation_ends_with_eval_state _ _ _ _ _ Hop Hrun)
    as (self1 & σ1 & Hev).
  destruct (eval_state_copies_the_array _ _ _ _ Hev)
    as (a & p & xs & Hlast & Hpar & Ha & Hp & Hne).
  exists a, p, xs. unfold params, state_getitem, snapshot, poke.
  rewrite !lookup_fmap, Hpar, Ha. cbn [heap fmap option_fmap option_map deref].
  rewrite Hp. do 5 (split; [done|]). intros ys.
  rewrite lookup_fmap, Hpar. cbn [fmap option_fmap option_map deref].
  rewrite lookup_insert_eq, lookup_insert_ne, Hp by done.
  repeat split; done.
Qed.

End DefensiveCopy.

(** ** Writing the parameters *)

(** Facts about the arrays in use. *)
Lemma fresh_is_unused (h : gmap loc (list scalar)) : h !! fresh (dom h) = None.
Proof. apply not_elem_of_dom, is_fresh. Qed.

Section ReadBack.

(** The model's optimizer array reads back what was last written to it:
    [array_of] is what the array holds; a write makes it hold what was
    written, a read hands out an array that holds it, and neither a query
    of the model nor the creation of an array elsewhere changes it. *)
Variable array_of : M → gmap loc (list scalar) → list scalar.

Hypothesis write_sets : ∀ v m h m' h' V,
  β unit (SetOptimizerArray v) m h = (inr tt, m', h') →
  h !! v = Some V →
  array_of m' h' = V.

Hypothesis read_gets : ∀ m h a m' h',
  β loc GetOptimizerArray m h = (inr a, m', h') →
  h' !! a = Some (array_of m h).

Hypothesis query_keeps : ∀ X (c : method scalar X) m h r m' h',
  is_query c = true →
  β X c m h = (r, m', h') →
  array_of m' h' = array_of m h.

Hypothesis np_array_keeps : ∀ m h xs,
  array_of m (<[fresh (dom h) := xs]> h) = array_of m h.

Ltac array_kept :=
  repeat match goal with
  | H : β _ ?c ?m ?h = (?r, ?m', ?h') |- _ =>
      lazymatch goal with
      | _ : array_of m' h' = array_of m h |- _ => fail
      | _ => assert (array_of m' h' = array_of m h)
               by exact (query_keeps _ c m h r m' h' eq_refl H)
      end
  end.

Lemma write_reaches_cache_and_model v V self σ self' σ' :
  heap σ !! v = Some V →
  params_setter β v self σ = Ok tt self' σ' →
  ∃ p, _state self' !! "params" = Some (VArr p)
       ∧ heap σ' !! p = Some V
       ∧ array_of (model σ') (heap σ') = V.
Proof.
  intros Hv.
  py_run β; try discriminate; intros [= <- <-]; py_simpl;
    repeat match goal with u : unit |- _ => destruct u end;
    match goal with
    | H : β unit (SetOptimizerArray v) _ _ = _ |- _ =>
        pose proof (write_sets _ _ _ _ _ _ H Hv) as Hset
    end;
    match goal with
    | H : β loc GetOptimizerArray _ _ = _ |- _ =>
        pose proof (read_gets _ _ _ _ _ H) as Hget
    end;
    array_kept;
    rewrite ?np_array_keeps in *;
    eexists; rewrite !lookup_insert_eq, Hget; cbn [default id];
    (split; [reflexivity|]); split; congruence.
Qed.

(** C4.  When a write of [params] with an array that holds [V] returns,
    the [params] property returns an array that holds [V], and so does the
    model's [optimizer_array]. *)
Theorem C4_params_round_trip v V self σ self' σ' :
  heap σ !! v = Some V →
  params_setter β v self σ = Ok tt self' σ' →
  (∃ p, params self' σ' = Ok (VArr p) self' σ'
        ∧ heap σ' !! p = Some V)
  ∧ snapshot self' σ' !! "params" = Some (CArr (Some V))
  ∧ array_of (model σ') (heap σ') = V
  ∧ (∀ a m' h',
       β loc GetOptimizerArray (model σ') (heap σ') = (inr a, m', h') →
       h' !! a = Some V).
Proof.
  intros Hv Hrun.
  destruct (write_reaches_cache_and_model _ _ _ _ _ _ Hv Hrun)
    as (p & Hpar & Hp & Harr).
  unfold params, state_getitem, snapshot.
  rewrite lookup_fmap, Hpar. cbn [fmap option_fmap option_map deref].
  rewrite Hp. repeat split; eauto.
  intros a m' h' Hread. rewrite (read_gets _ _ _ _ _ Hread). congruence.
Qed.

End ReadBack.

(** ** Writing the parameters and writing them back *)

Lemma expected_snapshot_params {P : Type} (law : P → question scalar → E + seen scalar)
    (current : P → list scalar) cg p snap :
  expected_snapshot law current cg p = Some snap →
  snap !! "params" = Some (CArr (Some (current p))).
Proof.
  unfold expected_snapshot. intros H.
  repeat case_match; simplify_option_eq; apply lookup_insert_eq.
Qed.


Section Deterministic.

(** The model is deterministic: it has a parameter state, of which its
    optimizer array is a part that a write replaces, and what a query
    answers is a function [law] of the parameter state and of the contents
    of the array the query is given.  A query changes neither the parameter
    state nor an array that exists; nor does the creation of an array
    change the parameter state. *)
Context {P : Type}.
Variable pstate : M → gmap loc (list scalar) → P.
Variable current : P → list scalar.
Variable assign : P → list scalar → P.
Variable law : P → question scalar → E + seen scalar.

Hypothesis assign_current : ∀ p, assign p (current p) = p.

Hypothesis assign_assign : ∀ p V V', assign (assign p V') V = assign p V.

Hypothesis queries_are_functions : ∀ X (c : method scalar X) m h r m' h' q,
  asks c h = Some q →
  β X c m h = (r, m', h') →
  answers_as c h' r (law (pstate m h) q)
  ∧ pstate m' h' = pstate m h
  ∧ h ⊆ h'.

Hypothesis optimizer_array_is_current : ∀ p xs,
  law p QGetOptimizerArray = inr (SArr xs) → xs = current p.

Hypothesis write_assigns : ∀ v m h m' h' V,
  β unit (SetOptimizerArray v) m h = (inr tt, m', h') →
  h !! v = Some V →
  pstate m' h' = assign (pstate m h) V.

Hypothesis np_array_keeps_pstate : ∀ m h xs,
  pstate m (<[fresh (dom h) := xs]> h) = pstate m h.

Lemma np_array_frame (h : gmap loc (list scalar)) xs :
  h ⊆ <[fresh (dom h) := xs]> h.
Proof. apply insert_subseteq, fresh_is_unused. Qed.

Ltac lookup_frame :=
  first
    [ eassumption
    | apply lookup_insert_eq
    | match goal with
      | H : ?h ⊆ ?h' |- ?h' !! _ = Some _ =>
          apply (lookup_weaken h h'); [lookup_frame | exact H]
      | |- <[fresh (dom ?h) := ?xs]> ?h !! _ = Some _ =>
          apply (lookup_weaken h); [lookup_frame | apply np_array_frame]
      end ].

Lemma eval_state_is_a_function self σ self' σ' :
  _eval_state β self σ = Ok tt self' σ' →
  expected_snapshot law current (_compute_grad self) (pstate (model σ) (heap σ))
    = Some (snapshot self' σ')
  ∧ pstate (model σ') (heap σ') = pstate (model σ) (heap σ)
  ∧ _compute_grad self' = _compute_grad self.
Proof.
  unfold snapshot.
  py_run β; try discriminate; intros [= <- <-]; py_simpl.
  all: repeat match goal with
    | H : β _ ?c ?m ?h = (?r, ?m', ?h') |- _ =>
        let F := fresh "F" in
        pose proof (queries_are_functions _ c m h r m' h' _ eq_refl H)
          as (F & ? & ?);
        clear H
    end.
  all: rewrite ?np_array_keeps_pstate in *.
  all: repeat match goal with
    | H : pstate ?m ?h = pstate _ _ |- _ => rewrite H in *; clear H
    end.
  all: unfold answers_as in *; cbn [see] in *.
  all: repeat match goal with
    | H : match law ?p ?q with _ => _ end |- _ =>
        destruct (law p q) as [?|?] eqn:?; [contradiction|]
    end.
  all: repeat match goal with
    | H : Some _ = Some _ |- _ => injection H as <-
    | H : SArr <$> ?h !! ?a = Some _ |- _ =>
        let Hl := fresh "Hl" in
        destruct (h !! a) eqn:Hl; [|discriminate H];
        injection H as <-;
        rewrite ?Hl in *
    | H : context [<[?l := ?xs]> ?h !! ?l] |- _ =>
        rewrite (lookup_insert_eq h l xs) in H
    end.
  all: repeat match goal with
    | H : law _ QGetOptimizerArray = inr (SArr ?xs) |- _ =>
        pose proof (optimizer_array_is_current _ _ H); subst xs; revert H
    end; intros.
  all: unfold expected_snapshot.
  all: repeat match goal with
    | H : law _ _ = _ |- _ =>
        rewrite H; cbn [mbind option_bind mret option_ret]
    end.
  all: rewrite ?fmap_insert, fmap_empty; cbn [deref].
  all: repeat match goal with
    | |- context [CArr (?h !! ?a)] =>
        let H := fresh in
        eassert (h !! a = Some _) as H by lookup_frame;
        rewrite H; clear H
    end.
  all: cbn [default id]; repeat split; reflexivity.
Qed.
Lemma write_is_a_function v V self σ self' σ' :
  heap σ !! v = Some V →
  params_setter β v self σ = Ok tt self' σ' →
  expected_snapshot law current (_compute_grad self)
                    (assign (pstate (model σ) (heap σ)) V)
    = Some (snapshot self' σ')
  ∧ pstate (model σ') (heap σ') = assign (pstate (model σ) (heap σ)) V
  ∧ _compute_grad self' = _compute_grad self.
Proof.
  intros Hv. unfold params_setter, bind, call.
  destruct (β unit (SetOptimizerArray v) _ _) as [[[?|[]] m'] h'] eqn:Hset;
    [discriminate|].
  intros Hev. apply eval_state_is_a_function in Hev. cbn [model heap] in Hev.
  rewrite (write_assigns _ _ _ _ _ _ Hset Hv) in Hev. exact Hev.
Qed.

(** C3, as the code has it.  The model is deterministic and, besides, its
    optimizer array is a part of its parameter state that a write replaces
    exactly: writing the array just read leaves the state as it is
    ([assign_current]), and a write forgets the one before it
    ([assign_assign], [write_assigns]).  Take a wrapper whose cache was just
    evaluated and whose ["params"] entry holds [V].  When a write of an
    array that holds [V'] and then a write of an array that holds [V] both
    return, the snapshot the cache holds (the log likelihood, the log prior,
    the contents of the parameter array and of the gradients when they are
    computed) is the one it held before the two writes. *)
Theorem C3_writing_back_restores_the_snapshot
    op self0 σ0 self σ v' V' self1 σ1 v V self2 σ2 :
  evaluation β op →
  op self0 σ0 = Ok tt self σ →
  snapshot self σ !! "params" = Some (CArr (Some V)) →
  heap σ !! v' = Some V' →
  params_setter β v' self σ = Ok tt self1 σ1 →
  heap σ1 !! v = Some V →
  params_setter β v self1 σ1 = Ok tt self2 σ2 →
  snapshot self2 σ2 = snapshot self σ.
Proof.
  intros Hop Hrun HV Hv' Hw1 Hv Hw2.
  destruct (evaluation_ends_with_eval_state _ _ _ _ _ Hop Hrun)
    as (self00 & σ00 & Hev).
  apply eval_state_is_a_function in Hev as (Hsnap & Hp & Hcg).
  apply (write_is_a_function _ _ _ _ _ _ Hv') in Hw1 as (_ & Hp1 & Hcg1).
  apply (write_is_a_function _ _ _ _ _ _ Hv) in Hw2 as (Hsnap2 & _ & Hcg2).
  assert (V = current (pstate (model σ) (heap σ))) as ->.
  { apply expected_snapshot_params in Hsnap. rewrite Hp. congruence. }
  rewrite Hp1, assign_assign, assign_current, Hcg1 in Hsnap2.
  rewrite <- Hcg, <- Hp in Hsnap. congruence.
Qed.

End Deterministic.

End Properties.

(** * The small model *)

Lemma toy_publish_frame xs (h : gmap loc (list float)) :
  h ⊆ (Toy.publish xs h).2 ∧ (Toy.publish xs h).2 !! (Toy.publish xs h).1 = Some xs.
Proof.
  unfold Toy.publish. cbn [fst snd]. split.
  - apply insert_subseteq, fresh_is_unused.
  - apply lookup_insert_eq.
Qed.

Lemma toy_optimizer_array_is_an_array m h a m' h' :
  Toy.gp loc GetOptimizerArray m h = (inr a, m', h') → is_Some (h' !! a).
Proof.
  cbn. intros [= <- <- <-]. rewrite lookup_insert_eq. eauto.
Qed.

Lemma toy_write_sets v m h m' h' V :
  Toy.gp unit (SetOptimizerArray v) m h = (inr tt, m', h') →
  h !! v = Some V →
  Toy.theta m' = V.
Proof. cbn. intros H Hv. rewrite Hv in H. by injection H as <- <-. Qed.

Lemma toy_read_gets m h a m' h' :
  Toy.gp loc GetOptimizerArray m h = (inr a, m', h') →
  h' !! a = Some (Toy.theta m).
Proof. cbn. intros [= <- <- <-]. apply lookup_insert_eq. Qed.

Lemma toy_queries_are_functions X (c : method float X) m h r m' h' q :
  asks c h = Some q →
  Toy.gp X c m h = (r, m', h') →
  answers_as c h' r (Toy.law m q) ∧ m' = m ∧ h ⊆ h'.
Proof.
  pose proof (λ xs, proj1 (toy_publish_frame xs h)) as Hsub.
  pose proof (λ xs, proj2 (toy_publish_frame xs h)) as Hnew.
  unfold Toy.publish in Hsub, Hnew. cbn [fst snd] in Hsub, Hnew.
  destruct c; cbn; intros [= <-];
    repeat case_match; intros [= <- <- <-]; cbn;
    rewrite ?Hnew;
    repeat match goal with H : ?t = _ |- context [?t] => rewrite H end;
    repeat split; done.
Qed.

Lemma toy_query_keeps X (c : method float X) m h r m' h' :
  is_query c = true →
  Toy.gp X c m h = (r, m', h') →
  Toy.theta m' = Toy.theta m.
Proof.
  destruct c; try discriminate; intros _ Hrun;
    (eapply toy_queries_are_functions in Hrun as (_ & -> & _);
      [reflexivity|reflexivity]).
Qed.

Lemma toy_write_assigns v m h m' h' V :
  Toy.gp unit (SetOptimizerArray v) m h = (inr tt, m', h') →
  h !! v = Some V →
  m' = Toy.assign m V.
Proof. cbn. intros H Hv. rewrite Hv in H. by injection H as <- <-. Qed.

Lemma toy_optimizer_array_is_current p xs :
  Toy.law p QGetOptimizerArray = inr (SArr xs) → xs = Toy.theta p.
Proof. cbn. by intros [= <-]. Qed.

Lemma toy_assign_current p : Toy.assign p (Toy.theta p) = p.
Proof. by destruct p. Qed.

(** * The theorems at work on the small model *)

(** C1: the claim fails.  After [model.optimizer_array = a1] the log prior
    is undefined, [_eval_state] (and with it the write of [params]) raises
    the model's [ValueError], and the cache, which held three entries, holds
    the new log likelihood alone. *)
Lemma C1_counterexample :
  result Toy.strict = inr tt
  ∧ _state (self_after Toy.strict)
    = {[ "log_likelihood" := VFloat (-2.5)%float;
         "log_prior" := VFloat (-2.5)%float;
         "params" := VArr 3%positive ]}
  ∧ result Toy.written = inr tt
  ∧ _state (self_after Toy.written) = _state (self_after Toy.strict)
  ∧ result Toy.rejected
    = inl (ModelError "ValueError: parameter outside the support of its prior")
  ∧ _state (self_after Toy.rejected)
    = {[ "log_likelihood" := VFloat (-6.5)%float ]}
  ∧ _state (self_after Toy.rejected) ≠ _state (self_after Toy.written)
  ∧ params_setter Toy.gp 1%positive (self_after Toy.strict) (machine_after Toy.strict)
    = Toy.rejected.
Proof.
  repeat split; try (vm_compute; reflexivity).
  intros H. apply (f_equal (lookup "params")) in H. vm_compute in H.
  discriminate H.
Qed.

(** C1 on the small model: the evaluation that raises. *)
Lemma C1_witness :
  _eval_state Toy.gp (self_after Toy.written) (machine_after Toy.written)
  = Raise (ModelError "ValueError: parameter outside the support of its prior")
          (self_after Toy.rejected) (machine_after Toy.rejected)
  ∧ ((∃ e0 ev,
        ModelError "ValueError: parameter outside the support of its prior"
        = ModelError e0
        ∧ last (trace (machine_after Toy.rejected)) = Some ev
        ∧ raised_by ev = Some e0)
     ∧ (∀ s, _eval_state Toy.gp
               {| name := name (self_after Toy.written);
                  _compute_grad := _compute_grad (self_after Toy.written);
                  _state := s |}
               (machine_after Toy.written)
             = Raise (ModelError "ValueError: parameter outside the support of its prior")
                     (self_after Toy.rejected) (machine_after Toy.rejected))
     ∧ (∃ k, dom (_state (self_after Toy.rejected))
             = list_to_set (take k keys_before_params))
     ∧ _state (self_after Toy.rejected) !! "params" = None
     ∧ (∃ e0 t,
          ModelError "ValueError: parameter outside the support of its prior"
          = ModelError e0
          ∧ trace (machine_after Toy.rejected)
            = trace (machine_after Toy.written) ++ t
          ∧ failed_evaluation (_compute_grad (self_after Toy.written)) e0 t
                              (_state (self_after Toy.rejected)))).
Proof.
  assert (_eval_state Toy.gp (self_after Toy.written) (machine_after Toy.written)
          = Raise (ModelError "ValueError: parameter outside the support of its prior")
                  (self_after Toy.rejected) (machine_after Toy.rejected)) as H
    by (vm_compute; reflexivity).
  split; [exact H|].
  exact (C1_failed_evaluation_leaves_the_entries_stored_so_far Toy.gp _ _ _ _ _ H).
Defined.

(** C2 on the small model: three parameters and a flat prior, whose
    gradient [0.0] reaches the transform as [[0.0, 0.0, 0.0]]. *)
Lemma C2_witness :
  let pre : list (event float string) :=
    [EvLogLikelihood (inr (-7)%float); EvLogPrior (inr 0%float);
     EvLogLikelihoodGradients (inr 2%positive);
     EvTransformGradients 2%positive (Some [-1; -2; -3]%float) (inr 3%positive)] in
  let post : list (event float string) :=
    [EvNumParamsTransformed (inr 3);
     EvTransformGradients 4%positive (Some [0; 0; 0]%float) (inr 5%positive);
     EvGetOptimizerArray (inr 6%positive)] in
  evaluation Toy.gp (__init__ Toy.gp "gp" true false)
  ∧ trace (machine_after (__init__ Toy.gp "gp" true false blank Toy.start))
    = trace Toy.start ++ pre ++ EvLogPriorGradients (inr (VFloat 0%float)) :: post
  ∧ ((∃ e, post = [EvNumParamsTransformed (inl e)])
     ∨ (∃ n g r rest,
          post = EvNumParamsTransformed (inr n)
                 :: EvTransformGradients g (Some (replicate n 0%float)) r :: rest
          ∧ length (replicate n 0%float) = n
          ∧ (∀ y, y ∈ replicate n 0%float → y = 0%float)
          ∧ (∀ r', r = inr r' →
               _state (self_after (__init__ Toy.gp "gp" true false blank Toy.start))
                 !! "grad_log_prior" = Some (VArr r')))).
Proof.
  intros pre post.
  assert (evaluation Toy.gp (__init__ Toy.gp "gp" true false)) as Hop
    by constructor.
  split; [exact Hop|].
  assert (trace (machine_after (__init__ Toy.gp "gp" true false blank Toy.start))
          = trace Toy.start
            ++ pre ++ EvLogPriorGradients (inr (VFloat 0%float)) :: post) as Htr
    by (vm_compute; reflexivity).
  split; [exact Htr|].
  exact (C2_scalar_prior_gradient_is_broadcast Toy.gp _ _ _ _ _ _ Hop Htr).
Defined.

(** C5 on the small model, constructed with [assign_priors=True]. *)
Lemma C5_witness :
  new Toy.gp "gp" true true Toy.start
  = Ok tt (self_after Toy.built_with_priors) (machine_after Toy.built_with_priors)
  ∧ ∃ m1 h1 x m2 h2 y m3 h3 rest,
      Toy.gp unit AssignPriors (model Toy.start) (heap Toy.start) = (inr tt, m1, h1)
      ∧ Toy.gp float LogLikelihood m1 h1 = (inr x, m2, h2)
      ∧ Toy.gp float LogPrior m2 h2 = (inr y, m3, h3)
      ∧ log_likelihood (self_after Toy.built_with_priors)
                       (machine_after Toy.built_with_priors)
        = Ok (VFloat x) (self_after Toy.built_with_priors)
             (machine_after Toy.built_with_priors)
      ∧ log_prior (self_after Toy.built_with_priors)
                  (machine_after Toy.built_with_priors)
        = Ok (VFloat y) (self_after Toy.built_with_priors)
             (machine_after Toy.built_with_priors)
      ∧ trace (machine_after Toy.built_with_priors)
        = trace Toy.start ++ [EvAssignPriors (inr tt)]
          ++ EvLogLikelihood (inr x) :: EvLogPrior (inr y) :: rest.
Proof.
  assert (new Toy.gp "gp" true true Toy.start
          = Ok tt (self_after Toy.built_with_priors)
                  (machine_after Toy.built_with_priors)) as H
    by (vm_compute; reflexivity).
  split; [exact H|].
  exact (C5_construction_caches_the_models_answers Toy.gp _ _ _ _ _ _ H).
Defined.

(** C9: the claim fails.  A wrapper constructed with [compute_grad=False]
    is given, through [__setstate__], the state of a wrapper of the same
    model constructed with [compute_grad=True]: both gradient properties
    then return the arrays of that state, and no [KeyError] is raised. *)
Lemma C9_counterexample :
  result ToyRuns.with_gradients = inr tt
  ∧ result ToyRuns.without_gradients = inr tt
  ∧ _compute_grad (self_after ToyRuns.without_gradients) = false
  ∧ result ToyRuns.restored = inr tt
  ∧ _compute_grad (self_after ToyRuns.restored) = false
  ∧ result (grad_log_likelihood (self_after ToyRuns.restored)
                                (machine_after ToyRuns.restored))
    = inr (VArr 3%positive)
  ∧ result (grad_log_prior (self_after ToyRuns.restored)
                           (machine_after ToyRuns.restored))
    = inr (VArr 5%positive)
  ∧ snapshot (self_after ToyRuns.restored) (machine_after ToyRuns.restored)
      !! "grad_log_likelihood"
    = Some (CArr (Some [-1; -2; -3]%float)).
Proof. repeat split; vm_compute; reflexivity. Qed.

(** C9 on the small model: the wrapper constructed with
    [compute_grad=False] is given the state of the other wrapper, and its
    parameters are then written. *)
Lemma C9_witness :
  let a := self_after ToyRuns.without_gradients in
  let σa := machine_after ToyRuns.without_gradients in
  let r := self_after (__setstate__ (_state (self_after ToyRuns.with_gradients))
                                    a σa) in
  let o := params_setter Toy.gp 1%positive r σa in
  constructed_with Toy.gp false false (self_after o) (machine_after o)
  ∧ _state (self_after o) !! "grad_log_likelihood" = None
  ∧ _state (self_after o) !! "grad_log_prior" = None
  ∧ grad_log_likelihood (self_after o) (machine_after o)
    = Raise (KeyError "grad_log_likelihood") (self_after o) (machine_after o)
  ∧ grad_log_prior (self_after o) (machine_after o)
    = Raise (KeyError "grad_log_prior") (self_after o) (machine_after o).
Proof.
  intros a σa r o.
  assert (new Toy.gp "without" false false (machine_after ToyRuns.with_gradients)
          = Ok tt a σa) as Hnew
    by (vm_compute; reflexivity).
  pose proof (cw_new Toy.gp false "without" false _ a σa Hnew) as Ha.
  pose proof (cw_restore Toy.gp false false
                (_state (self_after ToyRuns.with_gradients)) a σa Ha) as Hr.
  pose proof (cw_write Toy.gp false true 1%positive _ _ Hr) as Ho.
  assert (true && negb (reaches_evaluation Toy.gp 1%positive σa) = false) as E
    by (vm_compute; reflexivity).
  rewrite E in Ho.
  split; [exact Ho|].
  exact (C9_no_gradients_without_compute_grad Toy.gp _ _ Ho).
Defined.

(** C6 on the small model: the cache after construction. *)
Lemma C6_witness :
  evaluation Toy.gp (__init__ Toy.gp "gp" true false)
  ∧ __init__ Toy.gp "gp" true false blank Toy.start
    = Ok tt (self_after Toy.built) (machine_after Toy.built)
  ∧ ∃ a p xs,
      last (trace (machine_after Toy.built)) = Some (EvGetOptimizerArray (inr a))
      ∧ heap (machine_after Toy.built) !! a = Some xs
      ∧ params (self_after Toy.built) (machine_after Toy.built)
        = Ok (VArr p) (self_after Toy.built) (machine_after Toy.built)
      ∧ snapshot (self_after Toy.built) (machine_after Toy.built) !! "params"
        = Some (CArr (Some xs))
      ∧ p ≠ a
      ∧ ∀ ys,
          heap (poke a ys (machine_after Toy.built)) !! a = Some ys
          ∧ params (self_after Toy.built) (poke a ys (machine_after Toy.built))
            = Ok (VArr p) (self_after Toy.built)
                 (poke a ys (machine_after Toy.built))
          ∧ snapshot (self_after Toy.built) (poke a ys (machine_after Toy.built))
              !! "params"
            = Some (CArr (Some xs)).
Proof.
  assert (evaluation Toy.gp (__init__ Toy.gp "gp" true false)) as Hop
    by constructor.
  assert (__init__ Toy.gp "gp" true false blank Toy.start
          = Ok tt (self_after Toy.built) (machine_after Toy.built)) as H
    by (vm_compute; reflexivity).
  split; [exact Hop|]. split; [exact H|].
  exact (C6_params_is_a_copy Toy.gp toy_optimizer_array_is_an_array
           _ _ _ _ _ Hop H).
Defined.

(** C4 on the small model: the write of the array at location 1. *)
Lemma C4_witness :
  heap (machine_after Toy.built) !! 1%positive = Some [0.5; 1.5; 2.5]%float
  ∧ params_setter Toy.gp 1%positive (self_after Toy.built) (machine_after Toy.built)
    = Ok tt (self_after Toy.moved) (machine_after Toy.moved)
  ∧ (∃ p, params (self_after Toy.moved) (machine_after Toy.moved)
          = Ok (VArr p) (self_after Toy.moved) (machine_after Toy.moved)
          ∧ heap (machine_after Toy.moved) !! p = Some [0.5; 1.5; 2.5]%float)
  ∧ snapshot (self_after Toy.moved) (machine_after Toy.moved) !! "params"
    = Some (CArr (Some [0.5; 1.5; 2.5]%float))
  ∧ Toy.theta (model (machine_after Toy.moved)) = [0.5; 1.5; 2.5]%float
  ∧ (∀ a m' h',
       Toy.gp loc GetOptimizerArray (model (machine_after Toy.moved))
              (heap (machine_after Toy.moved)) = (inr a, m', h') →
       h' !! a = Some [0.5; 1.5; 2.5]%float).
Proof.
  assert (heap (machine_after Toy.built) !! 1%positive
          = Some [0.5; 1.5; 2.5]%float) as Hv
    by (vm_compute; reflexivity).
  assert (params_setter Toy.gp 1%positive (self_after Toy.built)
                        (machine_after Toy.built)
          = Ok tt (self_after Toy.moved) (machine_after Toy.moved)) as H
    by (vm_compute; reflexivity).
  split; [exact Hv|]. split; [exact H|].
  exact (C4_params_round_trip Toy.gp (λ m _, Toy.theta m)
           toy_write_sets toy_read_gets toy_query_keeps (λ _ _ _, eq_refl)
           _ _ _ _ _ _ Hv H).
Defined.

Lemma sq_queries_are_functions X (c : method float X) m h r m' h' q :
  asks c h = Some q →
  Sq.gp X c m h = (r, m', h') →
  answers_as c h' r (Sq.law m q) ∧ m' = m ∧ h ⊆ h'.
Proof.
  pose proof (λ xs, proj1 (toy_publish_frame xs h)) as Hsub.
  pose proof (λ xs, proj2 (toy_publish_frame xs h)) as Hnew.
  unfold Toy.publish in Hsub, Hnew. cbn [fst snd] in Hsub, Hnew.
  destruct c; cbn; intros [= <-];
    repeat case_match; intros [= <- <- <-]; cbn;
    rewrite ?Hnew;
    repeat match goal with H : ?t = _ |- context [?t] => rewrite H end;
    repeat split; done.
Qed.

(** C3: the claim fails.  The model [Sq.gp] is deterministic: each of its
    queries answers by the function [Sq.law] of its parameter state and
    changes neither that state nor an array.  The wrapper's cache holds
    the parameters [V]; a write of [[3]] and then a write of an array that
    holds [V] both return, the parameters cached are again [V], and the
    log likelihood cached is another: the model's state is the square of
    what is written, and the square of the square root of 2 is not 2. *)
Lemma C3_counterexample :
  (∀ X (c : method float X) m h r m' h' q,
     asks c h = Some q →
     Sq.gp X c m h = (r, m', h') →
     answers_as c h' r (Sq.law m q) ∧ m' = m ∧ h ⊆ h')
  ∧ result Sq.built = inr tt
  ∧ snapshot (self_after Sq.built) (machine_after Sq.built) !! "params"
    = Some (CArr (Some [sqrt 2]%float))
  ∧ heap (machine_after Sq.built) !! 1%positive = Some [3%float]
  ∧ result Sq.moved = inr tt
  ∧ heap (machine_after Sq.moved) !! 7%positive = Some [sqrt 2]%float
  ∧ result Sq.moved_back = inr tt
  ∧ snapshot (self_after Sq.moved_back) (machine_after Sq.moved_back) !! "params"
    = Some (CArr (Some [sqrt 2]%float))
  ∧ snapshot (self_after Sq.built) (machine_after Sq.built) !! "log_likelihood"
    = Some (CFloat (-2)%float)
  ∧ snapshot (self_after Sq.moved_back) (machine_after Sq.moved_back)
      !! "log_likelihood"
    = Some (CFloat (- (sqrt 2 * sqrt 2))%float)
  ∧ (sqrt 2 * sqrt 2 =? 2)%float = false
  ∧ snapshot (self_after Sq.moved_back) (machine_after Sq.moved_back)
    ≠ snapshot (self_after Sq.built) (machine_after Sq.built).
Proof.
  split; [exact sq_queries_are_functions|].
  repeat split; try (vm_compute; reflexivity).
  intros H.
  apply (f_equal (λ d : gmap string (contents float),
                    match d !! "log_likelihood" with
                    | Some (CFloat x) => (x =? -2)%float
                    | _ => false
                    end)) in H.
  vm_compute in H. discriminate H.
Qed.

(** C3 on the small model: the write of the array at location 1, then the
    write of the array [params] returned before it. *)
Lemma C3_witness :
  evaluation Toy.gp (__init__ Toy.gp "gp" true false)
  ∧ __init__ Toy.gp "gp" true false blank Toy.start
    = Ok tt (self_after Toy.built) (machine_after Toy.built)
  ∧ snapshot (self_after Toy.built) (machine_after Toy.built) !! "params"
    = Some (CArr (Some [1; 2; 3]%float))
  ∧ heap (machine_after Toy.built) !! 1%positive = Some [0.5; 1.5; 2.5]%float
  ∧ params_setter Toy.gp 1%positive (self_after Toy.built) (machine_after Toy.built)
    = Ok tt (self_after Toy.moved) (machine_after Toy.moved)
  ∧ heap (machine_after Toy.moved) !! 7%positive = Some [1; 2; 3]%float
  ∧ params_setter Toy.gp 7%positive (self_after Toy.moved) (machine_after Toy.moved)
    = Ok tt (self_after Toy.moved_back) (machine_after Toy.moved_back)
  ∧ snapshot (self_after Toy.moved_back) (machine_after Toy.moved_back)
    = snapshot (self_after Toy.built) (machine_after Toy.built).
Proof.
  assert (evaluation Toy.gp (__init__ Toy.gp "gp" true false)) as Hop
    by constructor.
  assert (__init__ Toy.gp "gp" true false blank Toy.start
          = Ok tt (self_after Toy.built) (machine_after Toy.built)) as H0
    by (vm_compute; reflexivity).
  assert (snapshot (self_after Toy.built) (machine_after Toy.built) !! "params"
          = Some (CArr (Some [1; 2; 3]%float))) as HV
    by (vm_compute; reflexivity).
  assert (heap (machine_after Toy.built) !! 1%positive
          = Some [0.5; 1.5; 2.5]%float) as Hv'
    by (vm_compute; reflexivity).
  assert (params_setter Toy.gp 1%positive (self_after Toy.built)
                        (machine_after Toy.built)
          = Ok tt (self_after Toy.moved) (machine_after Toy.moved)) as H1
    by (vm_compute; reflexivity).
  assert (heap (machine_after Toy.moved) !! 7%positive
          = Some [1; 2; 3]%float) as Hv
    by (vm_compute; reflexivity).
  assert (params_setter Toy.gp 7%positive (self_after Toy.moved)
                        (machine_after Toy.moved)
          = Ok tt (self_after Toy.moved_back) (machine_after Toy.moved_back)) as H2
    by (vm_compute; reflexivity).
  do 7 (split; [assumption|]).
  exact (C3_writing_back_restores_the_snapshot Toy.gp
           (λ m _, m) Toy.theta Toy.assign Toy.law
           toy_assign_current (λ _ _ _, eq_refl)
           toy_queries_are_functions toy_optimizer_array_is_current
           toy_write_assigns (λ _ _ _, eq_refl)
           _ _ _ _ _ _ _ _ _ _ _ _ _ Hop H0 HV Hv' H1 Hv H2).
Defined.

(** * Further properties of the wrapper *)

Section Further.

Context {scalar E M : Type}.
Variable β : behaviour scalar E M.

Implicit Types (self : GPyModel scalar) (σ : machine scalar E M).
Implicit Types (s : gmap string (value scalar)).

(** ** What a snapshot holds *)

Lemma eval_state_keeps_the_flag self σ :
  _compute_grad (self_after (_eval_state β self σ)) = _compute_grad self
  ∧ name (self_after (_eval_state β self σ)) = name self.
Proof. py_run β; split; congruence. Qed.

Lemma eval_state_fills_the_cache self σ self' σ' :
  _eval_state β self σ = Ok tt self' σ' →
  dom (_state self') = cache_keys (_compute_grad self').
Proof.
  py_run β; try discriminate; intros [= <- <-]; py_simpl;
    unfold cache_keys;
    rewrite ?dom_insert_L, ?dom_empty_L; apply set_eq; intros ?;
    rewrite ?elem_of_union, ?elem_of_singleton, ?elem_of_empty; tauto.
Qed.

(** X1.  When an evaluation returns, the cache holds exactly the keys of a
    complete snapshot, whatever it held before: the log likelihood, the log
    prior and the parameters, and the two gradients exactly when
    [_compute_grad] is set; each of these keys reads without a
    [KeyError]. *)
Theorem X1_an_evaluation_leaves_a_complete_snapshot op self σ self' σ' :
  evaluation β op →
  op self σ = Ok tt self' σ' →
  dom (_state self') = cache_keys (_compute_grad self')
  ∧ ∀ key, key ∈ cache_keys (_compute_grad self') →
           ∃ v, state_getitem key self' σ' = Ok v self' σ'.
Proof.
  intros Hop Hrun.
  destruct (evaluation_ends_with_eval_state _ _ _ _ _ _ Hop Hrun)
    as (self1 & σ1 & Hev).
  pose proof (eval_state_fills_the_cache _ _ _ _ Hev) as Hdom.
  split; [exact Hdom|]. intros key Hkey. rewrite <- Hdom in Hkey.
  apply elem_of_dom in Hkey as [v Hv]. exists v.
  unfold state_getitem. by rewrite Hv.
Qed.

(** ** A write the model refuses *)

(** X2.  When the assignment [model.optimizer_array = v] raises, the write
    of [params] raises the same exception and stops there: the wrapper,
    its cache included, is as it was, and the assignment is the only call
    made. *)
Theorem X2_a_refused_write_keeps_the_cache v e m' h' self σ :
  β unit (SetOptimizerArray v) (model σ) (heap σ) = (inl e, m', h') →
  params_setter β v self σ
  = Raise (ModelError e) self
          {| heap := h'; model := m';
             trace := trace σ ++ [EvSetOptimizerArray v (heap σ !! v) (inl e)] |}.
Proof.
  intros H. unfold params_setter, bind, call. rewrite H. reflexivity.
Qed.

(** ** The calls an evaluation makes *)

(** X3.  A wrapper that ends an evaluation with [_compute_grad] unset made
    no call that serves the gradients, whether the evaluation returned or
    raised: neither gradient accessor, nor the transform, nor
    [num_params_transformed]. *)
Theorem X3_no_gradient_call_without_compute_grad op self σ :
  evaluation β op →
  _compute_grad (self_after (op self σ)) = false →
  ∃ t, trace (machine_after (op self σ)) = trace σ ++ t
       ∧ Forall (λ ev, asks_gradient ev = false) t.
Proof.
  intros Hop. destruct Hop; py_run β; try discriminate; intros _;
    (eexists; split; [flatten_trace; reflexivity|]);
    repeat constructor.
Qed.

(** X4.  Construction assigns priors first or not at all: with
    [assign_priors] set, [assign_priors_to_gpy_model] is the first call and
    is made once, and when it raises nothing else is called, the exception
    is raised and the instance is left as it was; without it the routine
    is never called. *)
Theorem X4_priors_are_assigned_first_or_never nm cg (ap : bool) self σ :
  ∃ t, trace (machine_after (__init__ β nm cg ap self σ)) = trace σ ++ t
       ∧ if ap
         then ∃ r rest,
                t = EvAssignPriors r :: rest
                ∧ Forall (λ ev, assigns_priors ev = false) rest
                ∧ ∀ e, r = inl e →
                       rest = []
                       ∧ result (__init__ β nm cg ap self σ) = inl (ModelError e)
                       ∧ self_after (__init__ β nm cg ap self σ) = self
         else Forall (λ ev, assigns_priors ev = false) t.
Proof.
  py_run β;
    (eexists; split; [flatten_trace; reflexivity|]);
    try (by repeat constructor);
    (do 2 eexists; split; [reflexivity|]; split; [by repeat constructor|]);
    intros ? [=]; subst; repeat split.
Qed.

(** X12.  [_eval_state] only asks and reads: none of its calls writes the
    optimizer array, asks the parameter names or assigns priors.  A write
    of [params] assigns the optimizer array once, as its first call, and
    what follows is an evaluation. *)
Theorem X12_an_evaluation_only_reads v self σ :
  (∃ t, trace (machine_after (_eval_state β self σ)) = trace σ ++ t
        ∧ Forall (λ ev, evaluation_call ev = true) t)
  ∧ (∃ r t, trace (machine_after (params_setter β v self σ))
            = trace σ ++ EvSetOptimizerArray v (heap σ !! v) r :: t
            ∧ Forall (λ ev, evaluation_call ev = true) t).
Proof.
  split.
  - py_run β; (eexists; split; [flatten_trace; reflexivity|]);
      repeat constructor.
  - py_run β; (do 2 eexists; split; [flatten_trace; reflexivity|]);
      repeat constructor.
Qed.

(** X13.  An evaluation that returns asked the model nothing twice except
    the gradient transform: the log likelihood, the log prior and the
    optimizer array were asked once each; with [_compute_grad] set each
    gradient accessor was asked once and the transform twice, and without
    it none of them; [num_params_transformed] at most once. *)
Theorem X13_an_evaluation_asks_each_quantity_once op self σ self' σ' :
  evaluation β op →
  op self σ = Ok tt self' σ' →
  ∃ t, trace σ' = trace σ ++ t
       ∧ calls_of KLogLikelihood t = 1
       ∧ calls_of KLogPrior t = 1
       ∧ calls_of KGetOptimizerArray t = 1
       ∧ calls_of KLogLikelihoodGradients t = (if _compute_grad self' then 1 else 0)
       ∧ calls_of KLogPriorGradients t = (if _compute_grad self' then 1 else 0)
       ∧ calls_of KTransformGradients t = (if _compute_grad self' then 2 else 0)
       ∧ calls_of KNumParamsTransformed t ≤ 1.
Proof.
  intros Hop.
  destruct Hop; py_run β; try discriminate; intros [= <- <-]; py_simpl;
    (eexists; split; [flatten_trace; reflexivity|]);
    repeat split; first [vm_compute; reflexivity | vm_compute; lia].
Qed.

(** ** Reading the cache *)

(** X11.  Reading a property backed by the cache calls nothing and changes
    nothing, and what it returns is decided by the cache alone: a change of
    the model or of the machine that did not go through the [params] setter
    is not seen. *)
Theorem X11_cached_reads_do_not_ask_the_model
    (property : Py scalar E M (value scalar)) self σ σ' :
  In property [log_likelihood; log_prior; params;
               grad_log_likelihood; grad_log_prior] →
  machine_after (property self σ) = σ
  ∧ self_after (property self σ) = self
  ∧ result (property self σ') = result (property self σ).
Proof.
  intros Hin. repeat destruct Hin as [<-|Hin]; try destruct Hin;
    py_unfold;
    match goal with |- context [_state self !! ?k] => destruct (_state self !! k) end;
    repeat split.
Qed.

(** ** The gradient of the log prior, when it is an array *)

(** X5.  In every evaluation, when [_log_prior_gradients()] answers an
    array, the next call is [_transform_gradients] on that very array:
    [num_params_transformed] is not asked and no array is made; what the
    transform answers is stored as ["grad_log_prior"]. *)
Theorem X5_array_prior_gradient_is_passed_as_it_is op self σ pre l post :
  evaluation β op →
  trace (machine_after (op self σ))
    = trace σ ++ pre ++ EvLogPriorGradients (inr (VArr l)) :: post →
  ∃ c r rest,
    post = EvTransformGradients l c r :: rest
    ∧ (∀ r', r = inr r' →
         _state (self_after (op self σ)) !! "grad_log_prior" = Some (VArr r')).
Proof.
  intros Hop. destruct Hop; py_run β; flatten_trace; rewrite ?app_nil_r;
    intros Htr;
    apply app_inv_head in Htr;
    find_event Htr ltac:(fun H => injection H as -> <-);
    do 3 eexists; (split; [reflexivity|]);
    first [ intros r' [= <-]; by simplify_map_eq | intros r' [=] ].
Qed.

(** ** The gradients in the cache *)

(** X6.  When an evaluation that computes gradients returns, the model was
    asked, in this order, its log likelihood, its log prior and the gradient
    of its log likelihood; that gradient was handed to the transform as it
    was, and ["grad_log_likelihood"] is the very array the transform
    answered, not a copy: an assignment into that array from outside shows
    in what the property holds. *)
Theorem X6_the_cached_gradient_is_the_transforms_array op self σ self' σ' :
  evaluation β op →
  op self σ = Ok tt self' σ' →
  _compute_grad self' = true →
  ∃ pre x y g c r rest,
    trace σ' = trace σ ++ pre
               ++ EvLogLikelihood (inr x) :: EvLogPrior (inr y)
               :: EvLogLikelihoodGradients (inr g)
               :: EvTransformGradients g c (inr r) :: rest
    ∧ grad_log_likelihood self' σ' = Ok (VArr r) self' σ'
    ∧ ∀ ys, is_Some (heap σ' !! r) →
            snapshot self' (poke r ys σ') !! "grad_log_likelihood"
            = Some (CArr (Some ys)).
Proof.
  intros Hop. unfold snapshot, poke.
  destruct Hop; py_run β; try discriminate; intros [= <- <-]; py_simpl;
    try discriminate; intros _;
    [ exists [EvAssignPriors (inr tt)] | exists [EvAssignPriors (inr tt)]
    | exists [] | exists []
    | eexists [EvSetOptimizerArray _ _ (inr tt)]
    | eexists [EvSetOptimizerArray _ _ (inr tt)]
    | exists [] | exists [] ];
    repeat match goal with u : unit |- _ => destruct u end;
    do 6 eexists; (split; [flatten_trace; reflexivity|]);
    (split; [by simplify_map_eq|]);
    intros ys [zs Hzs]; rewrite Hzs; cbn [heap];
    rewrite lookup_fmap; simplify_map_eq; reflexivity.
Qed.

(** ** The flag *)

(** X7.  A wrapper keeps the [compute_grad] it was constructed with:
    neither a write of [params], whether it returns or raises, nor
    [__setstate__], whatever state it is given, changes [_compute_grad]. *)
Theorem X7_compute_grad_is_kept cg restored self σ :
  constructed_with β cg restored self σ →
  _compute_grad self = cg.
Proof.
  induction 1 as [nm ap σ self' σ' Hnew|restored v self σ _ IH
                 |restored s self σ _ IH|restored self σ σ' _ IH].
  - revert Hnew. unfold new, __init__, bind, call, ret, Model__init__,
      set__compute_grad.
    destruct ap; [destruct (β unit AssignPriors _ _) as [[[?|?] ?] ?]|];
      try discriminate; intros Hev;
      match type of Hev with
      | _eval_state β ?s ?m = _ =>
          pose proof (proj1 (eval_state_keeps_the_flag s m)) as Hflag
      end;
      rewrite Hev in Hflag; exact Hflag.
  - unfold params_setter, bind, call.
    destruct (β unit (SetOptimizerArray v) _ _) as [[[?|?] ?] ?].
    + exact IH.
    + cbv beta iota. rewrite (proj1 (eval_state_keeps_the_flag _ _)). exact IH.
  - exact IH.
  - exact IH.
Qed.

(** ** The array of the cached parameters *)

Section NewArray.

(** A call of the model leaves the arrays that exist in existence. *)
Hypothesis arrays_persist : ∀ X (c : method scalar X) m h r m' h',
  β X c m h = (r, m', h') → dom h ⊆ dom h'.

Ltac dom_chain Hin :=
  first
    [ exact Hin
    | match goal with
      | H : dom ?h ⊆ _ |- _ =>
          match type of Hin with
          | _ ∈ dom h => apply H in Hin; clear H; dom_chain Hin
          end
      | H : {[?l]} ∪ dom ?h ⊆ _ |- _ =>
          match type of Hin with
          | ?x ∈ dom h =>
              apply (elem_of_union_r x {[l]} (dom h)) in Hin;
              apply H in Hin; clear H; dom_chain Hin
          end
      end ].

(** X8.  The array cached as ["params"] by an evaluation did not exist
    when the operation began.  So it is none of the arrays the caller held
    then, the array written to [params] included, and an assignment into
    one of those afterwards leaves the cached parameters as they are. *)
Theorem X8_cached_params_is_a_new_array op self σ self' σ' :
  evaluation β op →
  op self σ = Ok tt self' σ' →
  ∃ p, params self' σ' = Ok (VArr p) self' σ'
       ∧ heap σ !! p = None
       ∧ ∀ b ys, is_Some (heap σ !! b) →
                 p ≠ b
                 ∧ snapshot self' (poke b ys σ') !! "params"
                   = snapshot self' σ' !! "params".
Proof.
  intros Hop.
  assert (∀ p, _state self' !! "params" = Some (VArr p) →
               heap σ !! p = None →
               params self' σ' = Ok (VArr p) self' σ'
               ∧ heap σ !! p = None
               ∧ ∀ b ys, is_Some (heap σ !! b) →
                         p ≠ b
                         ∧ snapshot self' (poke b ys σ') !! "params"
                           = snapshot self' σ' !! "params") as Hend.
  { intros p Hp Hnew. unfold params, state_getitem. rewrite Hp.
    do 2 (split; [done|]). intros b ys [zs Hb].
    assert (p ≠ b) as Hne by congruence. split; [exact Hne|].
    unfold snapshot, poke. rewrite !lookup_fmap, Hp.
    destruct (heap σ' !! b); [|reflexivity].
    cbn [heap fmap option_fmap option_map deref].
    by rewrite lookup_insert_ne. }
  destruct Hop; py_run β; try discriminate; intros [= <- <-]; py_simpl;
    repeat match goal with
    | H : β _ ?c ?m ?h = (?r, ?m', ?h') |- _ =>
        pose proof (arrays_persist _ c m h r m' h' H); clear H
    end;
    rewrite ?dom_insert_L in *;
    eexists; (apply Hend; [apply lookup_insert_eq|]);
    apply not_elem_of_dom; intros Hin;
    match goal with
    | Hin : fresh ?d ∈ _ |- _ => apply (is_fresh d)
    end;
    dom_chain Hin.
Qed.

End NewArray.

Section CacheFollowsModel.

(** [array_of] is what the model's optimizer array holds: a read hands out
    an array that holds it, and neither a query of the model nor the
    creation of an array elsewhere changes it. *)
Variable array_of : M → gmap loc (list scalar) → list scalar.

Hypothesis read_gets : ∀ m h a m' h',
  β loc GetOptimizerArray m h = (inr a, m', h') →
  h' !! a = Some (array_of m h).

Hypothesis query_keeps : ∀ X (c : method scalar X) m h r m' h',
  is_query c = true →
  β X c m h = (r, m', h') →
  array_of m' h' = array_of m h.

Hypothesis np_array_keeps : ∀ m h xs,
  array_of m (<[fresh (dom h) := xs]> h) = array_of m h.

Lemma eval_state_caches_the_models_array self σ self' σ' :
  _eval_state β self σ = Ok tt self' σ' →
  snapshot self' σ' !! "params"
  = Some (CArr (Some (array_of (model σ') (heap σ')))).
Proof.
  unfold snapshot.
  py_run β; try discriminate; intros [= <- <-]; py_simpl;
    match goal with
    | H : β loc GetOptimizerArray _ _ = _ |- _ =>
        pose proof (read_gets _ _ _ _ _ H) as Hget;
        pose proof (query_keeps _ GetOptimizerArray _ _ _ _ _ eq_refl H) as Hkeep
    end;
    rewrite lookup_fmap, lookup_insert_eq;
    cbn [fmap option_fmap option_map deref];
    rewrite lookup_insert_eq, np_array_keeps, Hget, Hkeep;
    reflexivity.
Qed.

(** X9.  After every evaluation that returns, construction included, the
    cached parameters are what the model's optimizer array holds: the
    snapshot is in step with the model. *)
Theorem X9_the_cache_follows_the_model op self σ self' σ' :
  evaluation β op →
  op self σ = Ok tt self' σ' →
  snapshot self' σ' !! "params"
  = Some (CArr (Some (array_of (model σ') (heap σ')))).
Proof.
  intros Hop Hrun.
  destruct (evaluation_ends_with_eval_state _ _ _ _ _ _ Hop Hrun)
    as (self1 & σ1 & Hev).
  exact (eval_state_caches_the_models_array _ _ _ _ Hev).
Qed.

End CacheFollowsModel.

Section WritingTheCurrentParameters.

(** A deterministic model, as for a write followed by a write back: its
    queries answer by a function [law] of a parameter state, of which the
    optimizer array is the part a write replaces. *)
Context {P : Type}.
Variable pstate : M → gmap loc (list scalar) → P.
Variable current : P → list scalar.
Variable assign : P → list scalar → P.
Variable law : P → question scalar → E + seen scalar.

Hypothesis assign_current : ∀ p, assign p (current p) = p.

Hypothesis queries_are_functions : ∀ X (c : method scalar X) m h r m' h' q,
  asks c h = Some q →
  β X c m h = (r, m', h') →
  answers_as c h' r (law (pstate m h) q)
  ∧ pstate m' h' = pstate m h
  ∧ h ⊆ h'.

Hypothesis optimizer_array_is_current : ∀ p xs,
  law p QGetOptimizerArray = inr (SArr xs) → xs = current p.

Hypothesis write_assigns : ∀ v m h m' h' V,
  β unit (SetOptimizerArray v) m h = (inr tt, m', h') →
  h !! v = Some V →
  pstate m' h' = assign (pstate m h) V.

Hypothesis np_array_keeps_pstate : ∀ m h xs,
  pstate m (<[fresh (dom h) := xs]> h) = pstate m h.


End WritingTheCurrentParameters.

End Further.

(** * The further properties at work on the small model *)

Lemma toy_arrays_persist X (c : method float X) m h r m' h' :
  Toy.gp X c m h = (r, m', h') → dom h ⊆ dom h'.
Proof.
  intros Hrun. destruct (asks c h) as [q|] eqn:Hq.
  - destruct (toy_queries_are_functions _ _ _ _ _ _ _ _ Hq Hrun) as (_ & _ & Hsub).
    by apply subseteq_dom.
  - destruct c; try discriminate; cbn in Hrun;
      repeat case_match; by injection Hrun as _ _ <-.
Qed.

(** X1 on the small model: the cache after construction. *)
Lemma X1_witness :
  let self' := self_after Toy.built in
  let σ' := machine_after Toy.built in
  evaluation Toy.gp (__init__ Toy.gp "gp" true false)
  ∧ __init__ Toy.gp "gp" true false blank Toy.start = Ok tt self' σ'
  ∧ dom (_state self') = cache_keys (_compute_grad self')
  ∧ ∀ key, key ∈ cache_keys (_compute_grad self') →
           ∃ v, state_getitem key self' σ' = Ok v self' σ'.
Proof.
  intros self' σ'.
  assert (evaluation Toy.gp (__init__ Toy.gp "gp" true false)) as Hop
    by constructor.
  assert (__init__ Toy.gp "gp" true false blank Toy.start = Ok tt self' σ') as H
    by (vm_compute; reflexivity).
  split; [exact Hop|]. split; [exact H|].
  exact (X1_an_evaluation_leaves_a_complete_snapshot Toy.gp _ _ _ _ _ Hop H).
Defined.

(** X2 on the small model: the write of something that is no array. *)
Lemma X2_witness :
  let self := self_after Toy.built in
  let σ := machine_after Toy.built in
  Toy.gp unit (SetOptimizerArray 99%positive) (model σ) (heap σ)
  = (inl "TypeError: not an array", model σ, heap σ)
  ∧ params_setter Toy.gp 99%positive self σ
    = Raise (ModelError "TypeError: not an array") self
            {| heap := heap σ; model := model σ;
               trace := trace σ
                        ++ [EvSetOptimizerArray 99%positive (heap σ !! 99%positive)
                              (inl "TypeError: not an array")] |}.
Proof.
  intros self σ.
  assert (Toy.gp unit (SetOptimizerArray 99%positive) (model σ) (heap σ)
          = (inl "TypeError: not an array", model σ, heap σ)) as H
    by (vm_compute; reflexivity).
  split; [exact H|].
  exact (X2_a_refused_write_keeps_the_cache Toy.gp _ _ _ _ self σ H).
Defined.

(** X3 on the small model: a write on the wrapper constructed with
    [compute_grad=False]. *)
Lemma X3_witness :
  let self := self_after Toy.built_plain in
  let σ := machine_after Toy.built_plain in
  evaluation Toy.gp (params_setter Toy.gp 1%positive)
  ∧ _compute_grad (self_after (params_setter Toy.gp 1%positive self σ)) = false
  ∧ ∃ t, trace (machine_after (params_setter Toy.gp 1%positive self σ))
         = trace σ ++ t
         ∧ Forall (λ ev, asks_gradient ev = false) t.
Proof.
  intros self σ.
  assert (evaluation Toy.gp (params_setter Toy.gp 1%positive)) as Hop
    by constructor.
  assert (_compute_grad (self_after (params_setter Toy.gp 1%positive self σ))
          = false) as H
    by (vm_compute; reflexivity).
  split; [exact Hop|]. split; [exact H|].
  exact (X3_no_gradient_call_without_compute_grad Toy.gp _ _ _ Hop H).
Defined.

(** X5 on the small model: with priors assigned the gradient of the log
    prior is an array. *)
Lemma X5_witness :
  let pre : list (event float string) :=
    [EvAssignPriors (inr tt);
     EvLogLikelihood (inr (-7)%float); EvLogPrior (inr (-7)%float);
     EvLogLikelihoodGradients (inr 2%positive);
     EvTransformGradients 2%positive (Some [-1; -2; -3]%float) (inr 3%positive)] in
  let post : list (event float string) :=
    [EvTransformGradients 4%positive (Some [-1; -2; -3]%float) (inr 5%positive);
     EvGetOptimizerArray (inr 6%positive)] in
  evaluation Toy.gp (__init__ Toy.gp "gp" true true)
  ∧ trace (machine_after (__init__ Toy.gp "gp" true true blank Toy.start))
    = trace Toy.start ++ pre
      ++ EvLogPriorGradients (inr (VArr 4%positive)) :: post
  ∧ ∃ c r rest,
      post = EvTransformGradients 4%positive c r :: rest
      ∧ (∀ r', r = inr r' →
           _state (self_after (__init__ Toy.gp "gp" true true blank Toy.start))
             !! "grad_log_prior" = Some (VArr r')).
Proof.
  intros pre post.
  assert (evaluation Toy.gp (__init__ Toy.gp "gp" true true)) as Hop
    by constructor.
  assert (trace (machine_after (__init__ Toy.gp "gp" true true blank Toy.start))
          = trace Toy.start ++ pre
            ++ EvLogPriorGradients (inr (VArr 4%positive)) :: post) as Htr
    by (vm_compute; reflexivity).
  split; [exact Hop|]. split; [exact Htr|].
  exact (X5_array_prior_gradient_is_passed_as_it_is Toy.gp _ _ _ _ _ _ Hop Htr).
Defined.

(** X6 on the small model: the gradients cached by construction. *)
Lemma X6_witness :
  let self' := self_after Toy.built in
  let σ' := machine_after Toy.built in
  evaluation Toy.gp (__init__ Toy.gp "gp" true false)
  ∧ __init__ Toy.gp "gp" true false blank Toy.start = Ok tt self' σ'
  ∧ _compute_grad self' = true
  ∧ ∃ pre x y g c r rest,
      trace σ' = trace Toy.start ++ pre
                 ++ EvLogLikelihood (inr x) :: EvLogPrior (inr y)
                 :: EvLogLikelihoodGradients (inr g)
                 :: EvTransformGradients g c (inr r) :: rest
      ∧ grad_log_likelihood self' σ' = Ok (VArr r) self' σ'
      ∧ ∀ ys, is_Some (heap σ' !! r) →
              snapshot self' (poke r ys σ') !! "grad_log_likelihood"
              = Some (CArr (Some ys)).
Proof.
  intros self' σ'.
  assert (evaluation Toy.gp (__init__ Toy.gp "gp" true false)) as Hop
    by constructor.
  assert (__init__ Toy.gp "gp" true false blank Toy.start = Ok tt self' σ') as H
    by (vm_compute; reflexivity).
  assert (_compute_grad self' = true) as Hcg by (vm_compute; reflexivity).
  split; [exact Hop|]. split; [exact H|]. split; [exact Hcg|].
  exact (X6_the_cached_gradient_is_the_transforms_array Toy.gp _ _ _ _ _ Hop H Hcg).
Defined.

(** X7 on the small model: the wrapper constructed with
    [compute_grad=False] is given the state of a wrapper constructed with
    [compute_grad=True]. *)
Lemma X7_witness :
  let a := self_after ToyRuns.without_gradients in
  let σa := machine_after ToyRuns.without_gradients in
  let r := self_after (__setstate__ (_state (self_after ToyRuns.with_gradients))
                                    a σa) in
  constructed_with Toy.gp false true r σa
  ∧ _compute_grad r = false.
Proof.
  intros a σa r.
  assert (new Toy.gp "without" false false (machine_after ToyRuns.with_gradients)
          = Ok tt a σa) as Hnew
    by (vm_compute; reflexivity).
  pose proof (cw_new Toy.gp false "without" false _ a σa Hnew) as Ha.
  pose proof (cw_restore Toy.gp false false
                (_state (self_after ToyRuns.with_gradients)) a σa Ha) as Hr.
  split; [exact Hr|].
  exact (X7_compute_grad_is_kept Toy.gp _ _ _ _ Hr).
Defined.

(** X8 on the small model: the write of the array at location 1. *)
Lemma X8_witness :
  let self := self_after Toy.built in
  let σ := machine_after Toy.built in
  let self' := self_after Toy.moved in
  let σ' := machine_after Toy.moved in
  evaluation Toy.gp (params_setter Toy.gp 1%positive)
  ∧ params_setter Toy.gp 1%positive self σ = Ok tt self' σ'
  ∧ ∃ p, params self' σ' = Ok (VArr p) self' σ'
         ∧ heap σ !! p = None
         ∧ ∀ b ys, is_Some (heap σ !! b) →
                   p ≠ b
                   ∧ snapshot self' (poke b ys σ') !! "params"
                     = snapshot self' σ' !! "params".
Proof.
  intros self σ self' σ'.
  assert (evaluation Toy.gp (params_setter Toy.gp 1%positive)) as Hop
    by constructor.
  assert (params_setter Toy.gp 1%positive self σ = Ok tt self' σ') as H
    by (vm_compute; reflexivity).
  split; [exact Hop|]. split; [exact H|].
  exact (X8_cached_params_is_a_new_array Toy.gp toy_arrays_persist
           _ _ _ _ _ Hop H).
Defined.

(** X9 on the small model: the cache after construction. *)
Lemma X9_witness :
  let self' := self_after Toy.built in
  let σ' := machine_after Toy.built in
  evaluation Toy.gp (__init__ Toy.gp "gp" true false)
  ∧ __init__ Toy.gp "gp" true false blank Toy.start = Ok tt self' σ'
  ∧ snapshot self' σ' !! "params"
    = Some (CArr (Some (Toy.theta (model σ')))).
Proof.
  intros self' σ'.
  assert (evaluation Toy.gp (__init__ Toy.gp "gp" true false)) as Hop
    by constructor.
  assert (__init__ Toy.gp "gp" true false blank Toy.start = Ok tt self' σ') as H
    by (vm_compute; reflexivity).
  split; [exact Hop|]. split; [exact H|].
  exact (X9_the_cache_follows_the_model Toy.gp (λ m _, Toy.theta m)
           toy_read_gets toy_query_keeps (λ _ _ _, eq_refl)
           _ _ _ _ _ Hop H).
Defined.


(** X11 on the small model: [params] read on the machine construction left
    and on the machine before construction. *)
Lemma X11_witness :
  let self := self_after Toy.built in
  let σ := machine_after Toy.built in
  In (params : Py float string Toy.state (value float))
     [log_likelihood; log_prior; params; grad_log_likelihood; grad_log_prior]
  ∧ machine_after (params self σ) = σ
  ∧ self_after (params self σ) = self
  ∧ result (params self Toy.start) = result (params self σ).
Proof.
  intros self σ.
  assert (In (params : Py float string Toy.state (value float))
             [log_likelihood; log_prior; params;
              grad_log_likelihood; grad_log_prior]) as H
    by (right; right; left; reflexivity).
  split; [exact H|].
  exact (X11_cached_reads_do_not_ask_the_model params self σ Toy.start H).
Defined.

(** X13 on the small model: the calls of construction. *)
Lemma X13_witness :
  let self' := self_after Toy.built in
  let σ' := machine_after Toy.built in
  evaluation Toy.gp (__init__ Toy.gp "gp" true false)
  ∧ __init__ Toy.gp "gp" true false blank Toy.start = Ok tt self' σ'
  ∧ ∃ t, trace σ' = trace Toy.start ++ t
         ∧ calls_of KLogLikelihood t = 1
         ∧ calls_of KLogPrior t = 1
         ∧ calls_of KGetOptimizerArray t = 1
         ∧ calls_of KLogLikelihoodGradients t = (if _compute_grad self' then 1 else 0)
         ∧ calls_of KLogPriorGradients t = (if _compute_grad self' then 1 else 0)
         ∧ calls_of KTransformGradients t = (if _compute_grad self' then 2 else 0)
         ∧ calls_of KNumParamsTransformed t ≤ 1.
Proof.
  intros self' σ'.
  assert (evaluation Toy.gp (__init__ Toy.gp "gp" true false)) as Hop
    by constructor.
  assert (__init__ Toy.gp "gp" true false blank Toy.start = Ok tt self' σ') as H
    by (vm_compute; reflexivity).
  split; [exact Hop|]. split; [exact H|].
  exact (X13_an_evaluation_asks_each_quantity_once Toy.gp _ _ _ _ _ Hop H).
Defined.
